(** * PAPILA patient registry: a shallow embedding of [papila_classes.py]

    The Python module defines the enumerations [Gender], [DiagnosisStatus],
    [Eye], [CrystallineStatus] and the classes [RefractiveError], [EyeData],
    [Patient] and [PapilaDataset].  This file embeds them twice:

    - by value (records and pure functions, explicit state passing for the
      methods that assign attributes), which is where the classification,
      filtering and aggregation logic is studied;
    - by reference (module [Heap]: one object store, objects addressed by
      location, methods as state-and-error computations), which is where
      sharing and allocation are studied.

    Python [int] is [Z]; Python [float] is an IEEE 754 binary64 number,
    [spec_float] with precision 53 and maximal exponent 1024; [str] is
    [string]; [Optional[T]] is [option T]; a raised exception is the left
    summand of a [sum]. *)

From stdpp Require Import gmap strings list.
From Stdlib Require Import ZArith QArith Lia Lqa.
From Stdlib Require Import Floats.SpecFloat.

Local Open Scope string_scope.
Local Open Scope Z_scope.

(** ** Enumerations *)

Inductive Gender := MALE | FEMALE.
Inductive DiagnosisStatus := HEALTHY | GLAUCOMA | SUSPECT.
Inductive Eye := RIGHT | LEFT.
Inductive CrystallineStatus := PHAKIC | PSEUDOPHAKIC.

#[global] Instance Gender_eq_dec : EqDecision Gender.
Proof. solve_decision. Defined.
#[global] Instance DiagnosisStatus_eq_dec : EqDecision DiagnosisStatus.
Proof. solve_decision. Defined.
#[global] Instance Eye_eq_dec : EqDecision Eye.
Proof. solve_decision. Defined.
#[global] Instance CrystallineStatus_eq_dec : EqDecision CrystallineStatus.
Proof. solve_decision. Defined.

(** ** Python floats *)

(** binary64: 53 bits of precision, infinities at exponent 1024. *)
Definition prec : Z := 53.
Definition emax : Z := 1024.

(** The floats Python can hold: every non-finite one, both zeros, and the
    finite ones whose mantissa and exponent are in canonical binary64 form. *)
Definition is_binary64 (x : spec_float) : Prop := valid_binary prec emax x = true.

(** The number a float stands for, [(-1)^s * m * 2^e], as a fraction; zeros
    (and, by convention, the non-finite floats) are sent to 0. *)
Definition F2Q (x : spec_float) : Q :=
  match x with
  | S754_finite s m e =>
      Qmake (cond_Zopp s (Zpos m) * 2 ^ Z.max 0 e) (Z.to_pos (2 ^ Z.max 0 (- e)))
  | _ => 0%Q
  end.

Definition is_finite (x : spec_float) : bool :=
  match x with
  | S754_zero _ | S754_finite _ _ _ => true
  | _ => false
  end.

(** The integer literals [-3], [-6] and [-12] of [get_glaucoma_severity].
    Python compares an [int] with a [float] by their exact values; these three
    are exactly representable, so the comparison is the IEEE comparison with
    the float of the same value: [-3 = -(3 * 2^51) * 2^-51] and so on. *)
Definition float_m3 : spec_float := S754_finite true 6755399441055744 (-51).
Definition float_m6 : spec_float := S754_finite true 6755399441055744 (-50).
Definition float_m12 : spec_float := S754_finite true 6755399441055744 (-49).

(** Python's [a <= x] and [x < b] on floats: false as soon as one side is NaN. *)
Definition float_le (a b : spec_float) : bool := SFleb a b.
Definition float_lt (a b : spec_float) : bool := SFltb a b.

(** ** RefractiveError and EyeData *)

Record RefractiveError := {
  sphere : spec_float;
  cylinder : option spec_float;
  axis : option spec_float
}.

Record EyeData := {
  eye_type : Eye;
  diagnosis : DiagnosisStatus;
  refractive_error : option RefractiveError;
  crystalline_status : option CrystallineStatus;
  pneumatic_iop : option spec_float;
  perkins_iop : option spec_float;
  pachymetry : option spec_float;
  axial_length : option spec_float;
  mean_defect : option spec_float;
  fundus_image : option string
}.

(** [EyeData.__init__]: the nine arguments are stored, [fundus_image] starts
    as [None]. *)
Definition EyeData_init (et : Eye) (d : DiagnosisStatus)
    (re : option RefractiveError) (cs : option CrystallineStatus)
    (pn pk pa al md : option spec_float) : EyeData :=
  {| eye_type := et; diagnosis := d; refractive_error := re;
     crystalline_status := cs; pneumatic_iop := pn; perkins_iop := pk;
     pachymetry := pa; axial_length := al; mean_defect := md;
     fundus_image := None |}.

Definition set_fundus_image (self : EyeData) (v : option string) : EyeData :=
  {| eye_type := eye_type self; diagnosis := diagnosis self;
     refractive_error := refractive_error self;
     crystalline_status := crystalline_status self;
     pneumatic_iop := pneumatic_iop self; perkins_iop := perkins_iop self;
     pachymetry := pachymetry self; axial_length := axial_length self;
     mean_defect := mean_defect self; fundus_image := v |}.

(** Exceptions raised by the module, with their messages. *)
Inductive exn :=
  | FileNotFoundError (msg : string)
  | NotADirectoryError (msg : string)
  | ValueError (msg : string)
  | TypeError
  | AttributeError.

Section Filesystem.

(** [os.path.exists], the one capability the method asks of the file
    system. *)
Variable path_exists : string -> bool.

(** [EyeData.add_fundus_image]: the object after the call, and either the
    exception raised or the [None] returned. *)
Definition add_fundus_image (self : EyeData) (image_path : string)
    : EyeData * (exn + unit) :=
  if path_exists image_path
  then (set_fundus_image self (Some image_path), inr tt)
  else (self, inl (FileNotFoundError ("La imagen " ++ image_path ++ " no existe"))).

(** [os.path.isdir]. *)
Variable isdir : string -> bool.

(** [PapilaDataset.set_base_directory], on the [base_dir] attribute alone:
    its value after the call, and the outcome. *)
Definition set_base_directory (base_dir : option string) (directory : string)
    : option string * (exn + unit) :=
  if isdir directory
  then (Some directory, inr tt)
  else (base_dir, inl (NotADirectoryError ("El directorio " ++ directory ++ " no existe"))).

End Filesystem.

(** [EyeData.get_glaucoma_severity]. *)
Definition get_glaucoma_severity (self : EyeData) : option string :=
  match mean_defect self with
  | None => None
  | Some md =>
      if negb (bool_decide (diagnosis self = GLAUCOMA)) then None
      else if float_le float_m6 md && float_lt md float_m3 then Some "Glaucoma Leve"
      else if float_le float_m12 md && float_lt md float_m6 then Some "Glaucoma Moderado"
      else if float_lt md float_m12 then Some "Glaucoma Severo"
      else Some "No clasificable"
  end.

(** The float nearest to the literal [-6.0000001]:
    [-6755399553645735 * 2^-50], just below [-6]. *)
Definition float_m6_below : spec_float := S754_finite true 6755399553645735 (-50).

(** An eye record holding only a diagnosis and a mean defect. *)
Definition eye_of (et : Eye) (d : DiagnosisStatus) (md : option spec_float) : EyeData :=
  EyeData_init et d None None None None None None md.

(** The floats [-0.0] and [0.0]. *)
Definition float_zero (s : bool) : spec_float := S754_zero s.

(** The float [-8.5] of the module's demonstration: [-4785074604081152 * 2^-49]. *)
Definition float_m8_5 : spec_float := S754_finite true 4785074604081152 (-49).

(** ** Patient *)

Record Patient := {
  patient_id : string;
  age : Z;
  gender : Gender;
  right_eye : option EyeData;
  left_eye : option EyeData
}.

(** [Patient.__init__]: the five arguments are stored as they come. *)
Definition Patient_init (pid : string) (a : Z) (g : Gender)
    (re le : option EyeData) : Patient :=
  {| patient_id := pid; age := a; gender := g; right_eye := re; left_eye := le |}.

Definition set_right_eye (self : Patient) (v : option EyeData) : Patient :=
  {| patient_id := patient_id self; age := age self; gender := gender self;
     right_eye := v; left_eye := left_eye self |}.

Definition set_left_eye (self : Patient) (v : option EyeData) : Patient :=
  {| patient_id := patient_id self; age := age self; gender := gender self;
     right_eye := right_eye self; left_eye := v |}.

(** [Patient.set_eye_data]: the patient after the call, and either the
    exception raised or the [None] returned. *)
Definition set_eye_data (self : Patient) (eye_data : EyeData) : Patient * (exn + unit) :=
  if bool_decide (eye_type eye_data = RIGHT) then (set_right_eye self (Some eye_data), inr tt)
  else if bool_decide (eye_type eye_data = LEFT) then (set_left_eye self (Some eye_data), inr tt)
  else (self, inl (ValueError "El tipo de ojo debe ser RIGHT o LEFT")).

(** Truth value of an [Optional[EyeData]]: [EyeData] defines neither
    [__bool__] nor [__len__], so an instance is true and [None] is false. *)
Definition truthy {A} (o : option A) : bool :=
  match o with Some _ => true | None => false end.

(** [eye and eye.diagnosis == d]. *)
Definition eye_has (o : option EyeData) (d : DiagnosisStatus) : bool :=
  match o with
  | Some e => bool_decide (diagnosis e = d)
  | None => false
  end.

(** [Patient.get_patient_diagnosis]. *)
Definition get_patient_diagnosis (self : Patient) : string :=
  if negb (truthy (right_eye self)) && negb (truthy (left_eye self)) then "Sin datos"
  else if eye_has (right_eye self) GLAUCOMA || eye_has (left_eye self) GLAUCOMA then "Glaucoma"
  else if eye_has (right_eye self) SUSPECT || eye_has (left_eye self) SUSPECT then "Sospechoso"
  else "Sano".

(** The invariant the data model asks of a patient: each recorded eye sits in
    the slot of its own side. *)
Definition eye_slots_ok (p : Patient) : Prop :=
  (forall e, right_eye p = Some e -> eye_type e = RIGHT) /\
  (forall e, left_eye p = Some e -> eye_type e = LEFT).

(** Some recorded eye of the patient carries diagnosis [d]. *)
Definition some_eye_is (p : Patient) (d : DiagnosisStatus) : Prop :=
  exists e, (right_eye p = Some e \/ left_eye p = Some e) /\ diagnosis e = d.

(** ** Exceptions as a monad *)

#[global] Instance exn_ret : MRet (sum exn) := fun A x => inr x.
#[global] Instance exn_bind : MBind (sum exn) := fun A B f m =>
  match m with
  | inl e => inl e
  | inr x => f x
  end.

(** ** Python dictionaries with string keys

    A [dict] iterates in insertion order and holds one entry per key;
    assigning to a key that is present replaces the value where it stands. *)
Definition dict (V : Type) := list (string * V).

Fixpoint dict_set {V} (k : string) (v : V) (d : dict V) : dict V :=
  match d with
  | [] => [(k, v)]
  | (k', v') :: d' =>
      if String.eqb k k' then (k', v) :: d' else (k', v') :: dict_set k v d'
  end.

Fixpoint dict_get {V} (k : string) (d : dict V) : option V :=
  match d with
  | [] => None
  | (k', v') :: d' => if String.eqb k k' then Some v' else dict_get k d'
  end.

Fixpoint dict_del {V} (k : string) (d : dict V) : dict V :=
  match d with
  | [] => []
  | (k', v') :: d' => if String.eqb k k' then d' else (k', v') :: dict_del k d'
  end.

Definition dict_values {V} (d : dict V) : list V := map snd d.

Definition dict_len {V} (d : dict V) : Z := Z.of_nat (length d).

(** ** PapilaDataset, by value *)

Record PapilaDataset := {
  patients : dict Patient;
  base_dir : option string
}.

Definition PapilaDataset_init : PapilaDataset :=
  {| patients := []; base_dir := None |}.

Definition add_patient (self : PapilaDataset) (patient : Patient) : PapilaDataset :=
  {| patients := dict_set (patient_id patient) patient (patients self);
     base_dir := base_dir self |}.

Definition get_patient (self : PapilaDataset) (pid : string) : option Patient :=
  dict_get pid (patients self).

Definition remove_patient (self : PapilaDataset) (pid : string) : PapilaDataset * bool :=
  match dict_get pid (patients self) with
  | Some _ => ({| patients := dict_del pid (patients self); base_dir := base_dir self |}, true)
  | None => (self, false)
  end.

(** *** filter_patients *)

(** The values a keyword argument of [filter_patients] is given here: an
    [int], a member of one of the two enumerations, a [str] or [None]. *)
Inductive value :=
  | VInt (z : Z)
  | VGender (g : Gender)
  | VDiagnosis (d : DiagnosisStatus)
  | VStr (s : string)
  | VNone.

(** [a >= v] and [a <= v] for an [int] [a]: defined against an [int], a
    [TypeError] against an enumeration member, a [str] or [None]. *)
Definition int_ge (a : Z) (v : value) : exn + bool :=
  match v with
  | VInt z => inr (z <=? a)
  | _ => inl TypeError
  end.

Definition int_le (a : Z) (v : value) : exn + bool :=
  match v with
  | VInt z => inr (a <=? z)
  | _ => inl TypeError
  end.

(** [g == v] and [d == v]: equality never raises, and values of different
    types are unequal. *)
Definition gender_eq (g : Gender) (v : value) : bool :=
  match v with
  | VGender g' => bool_decide (g = g')
  | _ => false
  end.

Definition diagnosis_eq (d : DiagnosisStatus) (v : value) : bool :=
  match v with
  | VDiagnosis d' => bool_decide (d = d')
  | _ => false
  end.

(** [eye and eye.diagnosis == v]. *)
Definition eye_matches (o : option EyeData) (v : value) : bool :=
  match o with
  | Some e => diagnosis_eq (diagnosis e) v
  | None => false
  end.

(** A list comprehension [[x for x in l if test x]] whose test may raise. *)
Fixpoint comprehension {A} (test : A -> exn + bool) (l : list A) : exn + list A :=
  match l with
  | [] => inr []
  | x :: l' =>
      b ← test x;
      r ← comprehension test l';
      inr (if b : bool then x :: r else r)
  end.

(** The test each keyword applies to a patient; an unknown keyword applies
    none. *)
Definition kwarg_test (key : string) (v : value) : option (Patient -> exn + bool) :=
  if String.eqb key "age_min" then Some (fun p => int_ge (age p) v)
  else if String.eqb key "age_max" then Some (fun p => int_le (age p) v)
  else if String.eqb key "gender" then Some (fun p => inr (gender_eq (gender p) v))
  else if String.eqb key "diagnosis" then
    Some (fun p => inr (eye_matches (right_eye p) v || eye_matches (left_eye p) v))
  else None.

(** One turn of the loop over [kwargs.items()]. *)
Definition filter_step (filtered_patients : list Patient) (kv : string * value)
    : exn + list Patient :=
  match kwarg_test kv.1 kv.2 with
  | Some test => comprehension test filtered_patients
  | None => inr filtered_patients
  end.

Fixpoint filter_loop (kwargs : list (string * value)) (filtered_patients : list Patient)
    : exn + list Patient :=
  match kwargs with
  | [] => inr filtered_patients
  | kv :: rest =>
      filtered_patients' ← filter_step filtered_patients kv;
      filter_loop rest filtered_patients'
  end.

(** [PapilaDataset.filter_patients]; [kwargs] lists the keyword arguments in
    the order of the call. *)
Definition filter_patients (self : PapilaDataset) (kwargs : list (string * value))
    : exn + list Patient :=
  filter_loop kwargs (dict_values (patients self)).

(** *** get_statistics *)

(** The values the age minimum and maximum take: [float('inf')],
    [float('-inf')], or the [int] age of a patient. *)
Inductive num := Int (z : Z) | Inf | NegInf.

(** Python's [a < b] on these. *)
Definition num_lt (a b : num) : bool :=
  match a, b with
  | Int x, Int y => x <? y
  | Int _, Inf => true
  | Int _, NegInf => false
  | Inf, _ => false
  | NegInf, NegInf => false
  | NegInf, _ => true
  end.

(** The builtins [min(a, b)] and [max(a, b)]: the first argument is kept
    unless the second is strictly smaller (strictly larger). *)
Definition py_min (a b : num) : num := if num_lt b a then b else a.
Definition py_max (a b : num) : num := if num_lt a b then b else a.

(** The dictionary [get_statistics] returns, one record per nested
    dictionary.  [age_avg] is the exact quotient; Python rounds it to the
    nearest float. *)
Record GenderDistribution := { male : Z; female : Z }.

Record DiagnosisDistribution := {
  healthy : Z;
  glaucoma : Z;
  suspect : Z;
  mixed : Z
}.

Record AgeStats := { age_min : num; age_max : num; age_avg : Q }.

Record Statistics := {
  total_patients : Z;
  gender_distribution : GenderDistribution;
  diagnosis_distribution : DiagnosisDistribution;
  age_stats : AgeStats
}.

(** [sum(1 for p in l if test p)]. *)
Definition count_if {A} (test : A -> bool) (l : list A) : Z :=
  fold_left (fun s p => if test p then s + 1 else s) l 0.

(** [eye.diagnosis if eye else None]. *)
Definition diagnosis_or_None (o : option EyeData) : option DiagnosisStatus :=
  match o with
  | Some e => Some (diagnosis e)
  | None => None
  end.

(** The diagnosis part of the loop body. *)
Definition count_diagnosis (dd : DiagnosisDistribution) (patient : Patient)
    : DiagnosisDistribution :=
  let right_diagnosis := diagnosis_or_None (right_eye patient) in
  let left_diagnosis := diagnosis_or_None (left_eye patient) in
  if bool_decide (right_diagnosis = left_diagnosis) then
    if bool_decide (right_diagnosis = Some HEALTHY) then
      {| healthy := healthy dd + 1; glaucoma := glaucoma dd;
         suspect := suspect dd; mixed := mixed dd |}
    else if bool_decide (right_diagnosis = Some GLAUCOMA) then
      {| healthy := healthy dd; glaucoma := glaucoma dd + 1;
         suspect := suspect dd; mixed := mixed dd |}
    else if bool_decide (right_diagnosis = Some SUSPECT) then
      {| healthy := healthy dd; glaucoma := glaucoma dd;
         suspect := suspect dd + 1; mixed := mixed dd |}
    else dd
  else
    {| healthy := healthy dd; glaucoma := glaucoma dd;
       suspect := suspect dd; mixed := mixed dd + 1 |}.

(** The dictionary as it is first built. *)
Definition initial_statistics (ps : dict Patient) : Statistics :=
  {| total_patients := dict_len ps;
     gender_distribution :=
       {| male := count_if (fun p => bool_decide (gender p = MALE)) (dict_values ps);
          female := count_if (fun p => bool_decide (gender p = FEMALE)) (dict_values ps) |};
     diagnosis_distribution := {| healthy := 0; glaucoma := 0; suspect := 0; mixed := 0 |};
     age_stats := {| age_min := Inf; age_max := NegInf; age_avg := 0 |} |}.

(** One turn of the loop over the patients: [total_age] and [stats] before,
    [total_age] and [stats] after. *)
Definition statistics_step (acc : Z * Statistics) (patient : Patient) : Z * Statistics :=
  let '(total_age, stats) := acc in
  (total_age + age patient,
   {| total_patients := total_patients stats;
      gender_distribution := gender_distribution stats;
      diagnosis_distribution := count_diagnosis (diagnosis_distribution stats) patient;
      age_stats :=
        {| age_min := py_min (age_min (age_stats stats)) (Int (age patient));
           age_max := py_max (age_max (age_stats stats)) (Int (age patient));
           age_avg := age_avg (age_stats stats) |} |}).

Definition set_age_avg (stats : Statistics) (v : Q) : Statistics :=
  {| total_patients := total_patients stats;
     gender_distribution := gender_distribution stats;
     diagnosis_distribution := diagnosis_distribution stats;
     age_stats :=
       {| age_min := age_min (age_stats stats);
          age_max := age_max (age_stats stats);
          age_avg := v |} |}.

(** What the end of [get_statistics] does with [total_age] and [stats]: the
    average is assigned when the dictionary of patients is not empty. *)
Definition finish_statistics {V} (ps : dict V) (acc : Z * Statistics) : Statistics :=
  let '(total_age, stats) := acc in
  match ps with
  | [] => stats
  | _ :: _ => set_age_avg stats (inject_Z total_age / inject_Z (dict_len ps))
  end.

(** [PapilaDataset.get_statistics]. *)
Definition get_statistics (self : PapilaDataset) : Statistics :=
  finish_statistics (patients self)
    (fold_left statistics_step (dict_values (patients self))
       (0, initial_statistics (patients self))).

(** A patient with neither eye recorded. *)
Definition has_no_eye (p : Patient) : bool :=
  negb (truthy (right_eye p)) && negb (truthy (left_eye p)).

(** *** What a keyword argument asks of a patient

    [age_min] is an inclusive lower bound on the age, [age_max] an inclusive
    upper bound, [gender] an exact match, [diagnosis] a match on either
    recorded eye; any other key asks nothing. *)
Definition satisfies (p : Patient) (kv : string * value) : Prop :=
  (kv.1 = "age_min" -> exists z, kv.2 = VInt z /\ z <= age p) /\
  (kv.1 = "age_max" -> exists z, kv.2 = VInt z /\ age p <= z) /\
  (kv.1 = "gender" -> kv.2 = VGender (gender p)) /\
  (kv.1 = "diagnosis" -> exists d, kv.2 = VDiagnosis d /\ some_eye_is p d).

Definition satisfiesb (p : Patient) (kv : string * value) : bool :=
  if String.eqb kv.1 "age_min" then
    match kv.2 with VInt z => z <=? age p | _ => false end
  else if String.eqb kv.1 "age_max" then
    match kv.2 with VInt z => age p <=? z | _ => false end
  else if String.eqb kv.1 "gender" then
    match kv.2 with VGender g => bool_decide (gender p = g) | _ => false end
  else if String.eqb kv.1 "diagnosis" then
    match kv.2 with
    | VDiagnosis d => eye_has (right_eye p) d || eye_has (left_eye p) d
    | _ => false
    end
  else true.

(** The age bounds are given as integers. *)
Definition age_bounds_are_int (kv : string * value) : Prop :=
  kv.1 = "age_min" \/ kv.1 = "age_max" -> exists z, kv.2 = VInt z.

(** The sum of the four diagnosis buckets. *)
Definition bucket_total (dd : DiagnosisDistribution) : Z :=
  healthy dd + glaucoma dd + suspect dd + mixed dd.

(** ** Further notions used to state properties of the module *)

(** How severe a label is: unclassifiable (or none) 0, mild 1, moderate 2,
    severe 3. *)
Definition severity_rank (r : option string) : Z :=
  match r with
  | Some s =>
      if String.eqb s "Glaucoma Severo" then 3
      else if String.eqb s "Glaucoma Moderado" then 2
      else if String.eqb s "Glaucoma Leve" then 1
      else 0
  | None => 0
  end.

(** [set_eye_data] called with each eye of a list in turn. *)
Definition set_eyes (p : Patient) (eyes : list EyeData) : Patient :=
  fold_left (fun p e => (set_eye_data p e).1) eyes p.

Definition dict_keys {V} (d : dict V) : list string := map fst d.

(** What [add_patient] and [remove_patient] maintain: one entry per key, and
    each patient filed under its own [patient_id]. *)
Definition dataset_ok (ds : PapilaDataset) : Prop :=
  NoDup (dict_keys (patients ds)) /\
  Forall (fun kp => kp.1 = patient_id kp.2) (patients ds).

(** [PapilaDataset.set_base_directory] on the dataset: the dataset after the
    call, and the outcome. *)
Definition set_base_directory_of (isdir : string -> bool) (self : PapilaDataset)
    (directory : string) : PapilaDataset * (exn + unit) :=
  ({| patients := patients self;
      base_dir := (set_base_directory isdir (base_dir self) directory).1 |},
   (set_base_directory isdir (base_dir self) directory).2).

(** Both eyes recorded with diagnosis [d]; the two sides differing, an
    unrecorded side counting as a diagnosis of its own. *)
Definition both_eyes (d : DiagnosisStatus) (p : Patient) : bool :=
  eye_has (right_eye p) d && eye_has (left_eye p) d.

Definition eyes_differ (p : Patient) : bool :=
  negb (bool_decide (diagnosis_or_None (right_eye p) = diagnosis_or_None (left_eye p))).

(** Two eye records agree on every attribute other than [fundus_image]. *)
Definition same_clinical (e e' : EyeData) : Prop :=
  eye_type e' = eye_type e /\ diagnosis e' = diagnosis e /\
  refractive_error e' = refractive_error e /\
  crystalline_status e' = crystalline_status e /\
  pneumatic_iop e' = pneumatic_iop e /\ perkins_iop e' = perkins_iop e /\
  pachymetry e' = pachymetry e /\ axial_length e' = axial_length e /\
  mean_defect e' = mean_defect e.



(** [add_fundus_image] called with each path of a list in turn, failures
    caught. *)
Definition attach_all (path_exists : string -> bool) (self : EyeData)
    (paths : list string) : EyeData :=
  fold_left (fun e p => (add_fundus_image path_exists e p).1) paths self.

(** The eye is of side [s]. *)
Definition side_is (s : Eye) (e : EyeData) : bool := bool_decide (eye_type e = s).

(** The last element of a list when there is one, [d] otherwise. *)
Definition last_or {A} (d : option A) (l : list A) : option A :=
  match last l with
  | Some x => Some x
  | None => d
  end.

(** ** The demonstration at the end of the module *)

(** The float [-2.5]: [-5629499534213120 * 2^-51]. *)
Definition float_m2_5 : spec_float := S754_finite true 5629499534213120 (-51).

Definition demo_patient : Patient :=
  Patient_init "P001" 65 MALE
    (Some (eye_of RIGHT GLAUCOMA (Some float_m8_5)))
    (Some (eye_of LEFT SUSPECT (Some float_m2_5))).

Definition demo_dataset : PapilaDataset := add_patient PapilaDataset_init demo_patient.

(** * The module by reference

    Objects live in a store and are named by their location.  A patient
    object holds the locations of its eye objects, the dictionary of a dataset
    and the lists [filter_patients] builds hold the locations of patient
    objects, so an object reached along two paths is one object.  A method is
    a computation that takes the store and gives back its outcome and the
    store it leaves. *)
Module Heap.

Definition loc := positive.

(** The dictionary [get_statistics] builds is kept as one object. *)
Inductive object :=
  | OEyeData (e : EyeData)
  | OPatient (pid : string) (a : Z) (g : Gender) (right_eye_ref left_eye_ref : option loc)
  | OList (items : list loc)
  | ODict (entries : dict loc)
  | OStatistics (s : Statistics)
  | ODataset (patients_ref : loc) (base : option string).

Abbreviation heap := (gmap loc object).

Definition M (A : Type) : Type := heap -> (exn + A) * heap.

#[global] Instance M_ret : MRet M := fun A x h => (inr x, h).
#[global] Instance M_bind : MBind M := fun A B k m h =>
  match m h with
  | (inl e, h') => (inl e, h')
  | (inr x, h') => k x h'
  end.

Definition raise {A} (e : exn) : M A := fun h => (inl e, h).

(** The outcome of a computation that does not touch the store. *)
Definition lift {A} (r : exn + A) : M A := fun h => (r, h).

(** Following a reference.  A location without an object does not arise in
    Python; the model answers [AttributeError], as it does when the object
    found is not of the class the caller reads attributes of. *)
Definition deref (l : loc) : M object := fun h =>
  match h !! l with
  | Some o => (inr o, h)
  | None => (inl AttributeError, h)
  end.

(** A new object, at a location the store does not use yet. *)
Definition alloc (o : object) : M loc := fun h =>
  let l := fresh (dom h) in (inr l, <[l := o]> h).

(** Assignment to the attributes or items of the object at [l]. *)
Definition store (l : loc) (o : object) : M unit := fun h => (inr tt, <[l := o]> h).

Definition load_eye (r : option loc) : M (option EyeData) :=
  match r with
  | None => mret None
  | Some l =>
      o ← deref l;
      match o with
      | OEyeData e => mret (Some e)
      | _ => raise AttributeError
      end
  end.

(** The patient at [l] as a value: its attributes, and its eyes read
    through their references. *)
Definition load_patient (l : loc) : M Patient :=
  o ← deref l;
  match o with
  | OPatient pid a g re le =>
      r ← load_eye re;
      l ← load_eye le;
      mret {| patient_id := pid; age := a; gender := g; right_eye := r; left_eye := l |}
  | _ => raise AttributeError
  end.

Definition load_list (l : loc) : M (list loc) :=
  o ← deref l;
  match o with
  | OList items => mret items
  | _ => raise AttributeError
  end.

Definition load_statistics (l : loc) : M Statistics :=
  o ← deref l;
  match o with
  | OStatistics s => mret s
  | _ => raise AttributeError
  end.

(** [self.patients], the entries of the dictionary a dataset refers to. *)
Definition load_patients (self : loc) : M (dict loc) :=
  o ← deref self;
  match o with
  | ODataset d _ =>
      o' ← deref d;
      match o' with
      | ODict entries => mret entries
      | _ => raise AttributeError
      end
  | _ => raise AttributeError
  end.

(** [[p for p in items if test p]]: the items kept are the references
    themselves. *)
Fixpoint comprehension (test : Patient -> exn + bool) (items : list loc) : M (list loc) :=
  match items with
  | [] => mret []
  | x :: rest =>
      p ← load_patient x;
      b ← lift (test p);
      kept ← comprehension test rest;
      mret (if b : bool then x :: kept else kept)
  end.

(** One turn of the loop over [kwargs.items()]: a recognised key binds
    [filtered_patients] to a new list, another key leaves it bound to the
    list it was. *)
Definition filter_step (filtered_patients : loc) (kv : string * value) : M loc :=
  match kwarg_test kv.1 kv.2 with
  | Some test =>
      items ← load_list filtered_patients;
      kept ← comprehension test items;
      alloc (OList kept)
  | None => mret filtered_patients
  end.

Fixpoint filter_loop (kwargs : list (string * value)) (filtered_patients : loc) : M loc :=
  match kwargs with
  | [] => mret filtered_patients
  | kv :: rest =>
      filtered_patients' ← filter_step filtered_patients kv;
      filter_loop rest filtered_patients'
  end.

(** [PapilaDataset.filter_patients]: [list(self.patients.values())] is a
    new list object, and the result is a reference to a list. *)
Definition filter_patients (self : loc) (kwargs : list (string * value)) : M loc :=
  entries ← load_patients self;
  filtered_patients ← alloc (OList (dict_values entries));
  filter_loop kwargs filtered_patients.

(** [sum(1 for p in self.patients.values() if test p)]. *)
Fixpoint count_if (test : Patient -> bool) (items : list loc) : M Z :=
  match items with
  | [] => mret 0
  | x :: rest =>
      p ← load_patient x;
      n ← count_if test rest;
      mret ((if test p then 1 else 0) + n)
  end.

(** The loop of [get_statistics]: [total_age] is a local variable, [stats]
    refers to the dictionary being filled in place. *)
Fixpoint statistics_loop (stats : loc) (items : list loc) (total_age : Z) : M Z :=
  match items with
  | [] => mret total_age
  | x :: rest =>
      patient ← load_patient x;
      s ← load_statistics stats;
      _ ← store stats (OStatistics (statistics_step (total_age, s) patient).2);
      statistics_loop stats rest (statistics_step (total_age, s) patient).1
  end.

(** [PapilaDataset.get_statistics]; the result is a reference to the
    dictionary built. *)
Definition get_statistics (self : loc) : M loc :=
  entries ← load_patients self;
  n_male ← count_if (fun p => bool_decide (gender p = MALE)) (dict_values entries);
  n_female ← count_if (fun p => bool_decide (gender p = FEMALE)) (dict_values entries);
  stats ← alloc (OStatistics
    {| total_patients := dict_len entries;
       gender_distribution := {| male := n_male; female := n_female |};
       diagnosis_distribution := {| healthy := 0; glaucoma := 0; suspect := 0; mixed := 0 |};
       age_stats := {| age_min := Inf; age_max := NegInf; age_avg := 0 |} |});
  total_age ← statistics_loop stats (dict_values entries) 0;
  _ ← match entries with
      | [] => mret tt
      | _ :: _ =>
          s ← load_statistics stats;
          store stats (OStatistics
            (set_age_avg s (inject_Z total_age / inject_Z (dict_len entries))))
      end;
  mret stats.

(** Every object of [h] is in [h'], unchanged. *)
Definition unchanged (h h' : heap) : Prop := h ⊆ h'.

(** Computations that only read: the store they leave is the store they
    found. *)
Definition reads_only {A} (m : M A) : Prop := forall h, (m h).2 = h.

(** A store for the examples: a dataset at 1, its dictionary at 2, one
    patient without eyes at 3. *)
Definition demo_heap : heap :=
  {[ 1%positive := ODataset 2%positive None;
     2%positive := ODict [("P001", 3%positive)];
     3%positive := OPatient "P001" 65 MALE None None ]}.

(** Reading the patient object at [l] in [h] gives the patient [p]. *)
Definition patient_at (h : heap) (l : loc) (p : Patient) : Prop :=
  (load_patient l h).1 = inr p.

(** The dataset object at [self] in [h] stands for the dataset [ds]: same
    keys in the same order, each referring to the patient of that key. *)
Definition dataset_at (h : heap) (self : loc) (ds : PapilaDataset) : Prop :=
  exists entries,
    (load_patients self h).1 = inr entries /\
    Forall2 (fun kl kp => kl.1 = kp.1 /\ patient_at h kl.2 kp.2) entries (patients ds).

(** The object at [l] is a list. *)
Definition is_list (h : heap) (l : loc) : Prop := exists items, h !! l = Some (OList items).

(** [Patient.set_eye_data]: the patient object is assigned a reference to
    the eye object it was given, in the slot of the eye's own side. *)
Definition set_eye_data (self eye_data : loc) : M unit :=
  o ← deref eye_data;
  match o with
  | OEyeData e =>
      p ← deref self;
      match p with
      | OPatient pid a g re le =>
          if bool_decide (eye_type e = RIGHT) then
            store self (OPatient pid a g (Some eye_data) le)
          else if bool_decide (eye_type e = LEFT) then
            store self (OPatient pid a g re (Some eye_data))
          else raise (ValueError "El tipo de ojo debe ser RIGHT o LEFT")
      | _ => raise AttributeError
      end
  | _ => raise AttributeError
  end.

(** [EyeData.add_fundus_image] on the eye object at [self]. *)
Definition add_fundus_image (path_exists : string -> bool) (self : loc)
    (image_path : string) : M unit :=
  if path_exists image_path then
    o ← deref self;
    match o with
    | OEyeData e => store self (OEyeData (set_fundus_image e (Some image_path)))
    | _ => raise AttributeError
    end
  else raise (FileNotFoundError ("La imagen " ++ image_path ++ " no existe")).

End Heap.

(** * Properties *)

(** ** Floats: the IEEE comparison is the comparison of the values *)

Lemma digits2_pos_bounds (m : positive) :
  2 ^ (Zpos (digits2_pos m) - 1) <= Zpos m < 2 ^ Zpos (digits2_pos m).
Proof.
  induction m as [p IH | p IH | ]; cbn [digits2_pos].
  - rewrite Pos2Z.inj_succ, Z.pow_succ_r by lia.
    replace (Z.succ (Z.pos (digits2_pos p)) - 1) with (Z.succ (Z.pos (digits2_pos p) - 1)) by lia.
    rewrite Z.pow_succ_r by lia. lia.
  - rewrite Pos2Z.inj_succ, Z.pow_succ_r by lia.
    replace (Z.succ (Z.pos (digits2_pos p)) - 1) with (Z.succ (Z.pos (digits2_pos p) - 1)) by lia.
    rewrite Z.pow_succ_r by lia. lia.
  - cbn. lia.
Qed.

(** A canonical binary64 mantissa has at most 53 bits, and exactly 53 above
    the least exponent. *)
Lemma canonical_mantissa_bounds (m : positive) (e : Z) :
  canonical_mantissa prec emax m e = true ->
  -1074 <= e /\ Zpos m < 2 ^ 53 /\ (-1074 < e -> 2 ^ 52 <= Zpos m).
Proof.
  unfold canonical_mantissa, fexp, emin, prec, emax. intros H%Z.eqb_eq.
  pose proof (digits2_pos_bounds m) as [Hlo Hhi].
  assert (Hd : Zpos (digits2_pos m) <= 53) by lia.
  split; [lia | split].
  - eapply Z.lt_le_trans; [exact Hhi |]. apply Z.pow_le_mono_r; lia.
  - intros He. assert (Hd' : Zpos (digits2_pos m) = 53) by lia.
    rewrite Hd' in Hlo. exact Hlo.
Qed.

Lemma F2Q_compare_pos (m1 m2 : positive) (e1 e2 : Z) :
  (F2Q (S754_finite false m1 e1) ?= F2Q (S754_finite false m2 e2))%Q =
  (Zpos m1 * 2 ^ (e1 - Z.min e1 e2) ?= Zpos m2 * 2 ^ (e2 - Z.min e1 e2)).
Proof.
  unfold Qcompare, F2Q. cbn [Qnum Qden cond_Zopp].
  rewrite !Z2Pos.id by (apply Z.pow_pos_nonneg; lia).
  rewrite <- !Z.mul_assoc, <- !Z.pow_add_r by lia.
  set (k := Z.max 0 e1 + Z.max 0 (- e2) - (e1 - Z.min e1 e2)).
  assert (Hk : 0 <= k) by lia.
  replace (Z.max 0 e1 + Z.max 0 (- e2)) with ((e1 - Z.min e1 e2) + k) by lia.
  replace (Z.max 0 e2 + Z.max 0 (- e1)) with ((e2 - Z.min e1 e2) + k) by lia.
  rewrite !Z.pow_add_r, !Z.mul_assoc by lia.
  symmetry. apply Zmult_compare_compat_r. apply Z.lt_gt, Z.pow_pos_nonneg; lia.
Qed.

Lemma F2Q_compare_canonical (m1 m2 : positive) (e1 e2 : Z) :
  canonical_mantissa prec emax m1 e1 = true ->
  canonical_mantissa prec emax m2 e2 = true ->
  (F2Q (S754_finite false m1 e1) ?= F2Q (S754_finite false m2 e2))%Q =
  match e1 ?= e2 with
  | Lt => Lt
  | Gt => Gt
  | Eq => Pos.compare_cont Eq m1 m2
  end.
Proof.
  intros (Hmin1 & Hhi1 & Hlo1)%canonical_mantissa_bounds
         (Hmin2 & Hhi2 & Hlo2)%canonical_mantissa_bounds.
  rewrite F2Q_compare_pos.
  assert (Hp : forall d, 1 <= d -> 2 <= 2 ^ d).
  { intros d Hd. change 2 with (2 ^ 1) at 1. apply Z.pow_le_mono_r; lia. }
  destruct (Z.compare_spec e1 e2) as [-> | Hlt | Hgt].
  - rewrite Z.min_id, Z.sub_diag, Z.pow_0_r, !Z.mul_1_r. reflexivity.
  - rewrite Z.min_l, Z.sub_diag, Z.pow_0_r, Z.mul_1_r by lia.
    apply Z.compare_lt_iff.
    specialize (Hp (e2 - e1) ltac:(lia)). specialize (Hlo2 ltac:(lia)).
    change (2 ^ 53) with (2 * 2 ^ 52) in Hhi1.
    set (k := 2 ^ 52) in *. nia.
  - rewrite Z.min_r, Z.sub_diag, Z.pow_0_r, Z.mul_1_r by lia.
    apply Z.compare_gt_iff.
    specialize (Hp (e1 - e2) ltac:(lia)). specialize (Hlo1 ltac:(lia)).
    change (2 ^ 53) with (2 * 2 ^ 52) in Hhi2.
    set (k := 2 ^ 52) in *. nia.
Qed.

Lemma F2Q_opp (m : positive) (e : Z) :
  F2Q (S754_finite true m e) = (- F2Q (S754_finite false m e))%Q.
Proof. unfold F2Q, Qopp. cbn [Qnum Qden cond_Zopp]. rewrite Z.mul_opp_l. reflexivity. Qed.

Lemma Qcompare_opp (a b : Q) : (- a ?= - b)%Q = (b ?= a)%Q.
Proof.
  destruct a as [na da], b as [nb db]. unfold Qcompare. cbn [Qnum Qden Qopp].
  rewrite !Z.mul_opp_l. apply Z.compare_opp.
Qed.

Lemma F2Q_pos (m : positive) (e : Z) : (0 < F2Q (S754_finite false m e))%Q.
Proof.
  unfold Qlt, F2Q. cbn [Qnum Qden cond_Zopp]. rewrite Z.mul_0_l, Z.mul_1_r.
  apply Z.mul_pos_pos; [lia | apply Z.pow_pos_nonneg; lia].
Qed.

Lemma F2Q_neg (m : positive) (e : Z) : (F2Q (S754_finite true m e) < 0)%Q.
Proof.
  unfold Qlt, F2Q. cbn [Qnum Qden cond_Zopp]. rewrite Z.mul_0_l, Z.mul_1_r.
  apply Z.mul_neg_pos; [lia | apply Z.pow_pos_nonneg; lia].
Qed.

(** On finite binary64 floats the IEEE comparison computes the order of the
    values. *)
Lemma SFcompare_finite (x y : spec_float) :
  is_binary64 x -> is_binary64 y -> is_finite x = true -> is_finite y = true ->
  SFcompare x y = Some (F2Q x ?= F2Q y)%Q.
Proof.
  unfold is_binary64.
  destruct x as [sx | sx | | sx mx ex], y as [sy | sy | | sy my ey];
    try discriminate; cbn [valid_binary is_finite SFcompare]; intros Hx Hy _ _.
  - reflexivity.
  - f_equal. symmetry. destruct sy.
    + apply Qgt_alt, F2Q_neg.
    + apply Qlt_alt, F2Q_pos.
  - f_equal. symmetry. destruct sx.
    + apply Qlt_alt, F2Q_neg.
    + apply Qgt_alt, F2Q_pos.
  - apply andb_prop in Hx as [Hx _], Hy as [Hy _]. f_equal. symmetry.
    destruct sx, sy.
    + rewrite !F2Q_opp, Qcompare_opp, F2Q_compare_canonical by assumption.
      pose proof (Pos.compare_cont_antisym mx my Eq) as Ha. cbn [CompOpp] in Ha.
      rewrite (Z.compare_antisym ex ey), <- Ha.
      destruct (ex ?= ey); reflexivity.
    + apply Qlt_alt. eapply Qlt_trans; [apply F2Q_neg | apply F2Q_pos].
    + apply Qgt_alt. eapply Qlt_trans; [apply F2Q_neg | apply F2Q_pos].
    + rewrite F2Q_compare_canonical by assumption. reflexivity.
Qed.

Lemma float_le_finite (x y : spec_float) :
  is_binary64 x -> is_binary64 y -> is_finite x = true -> is_finite y = true ->
  float_le x y = true <-> (F2Q x <= F2Q y)%Q.
Proof.
  intros Hx Hy Fx Fy. unfold float_le, SFleb.
  rewrite (SFcompare_finite x y Hx Hy Fx Fy), Qle_alt.
  destruct (F2Q x ?= F2Q y)%Q; split; congruence.
Qed.

Lemma float_lt_finite (x y : spec_float) :
  is_binary64 x -> is_binary64 y -> is_finite x = true -> is_finite y = true ->
  float_lt x y = true <-> (F2Q x < F2Q y)%Q.
Proof.
  intros Hx Hy Fx Fy. unfold float_lt, SFltb.
  rewrite (SFcompare_finite x y Hx Hy Fx Fy), Qlt_alt.
  destruct (F2Q x ?= F2Q y)%Q; split; congruence.
Qed.

Lemma float_m3_value : (F2Q float_m3 == -3)%Q.
Proof. reflexivity. Qed.

Lemma float_m6_value : (F2Q float_m6 == -6)%Q.
Proof. reflexivity. Qed.

Lemma float_m12_value : (F2Q float_m12 == -12)%Q.
Proof. reflexivity. Qed.

Lemma float_literals_binary64 :
  is_binary64 float_m3 /\ is_binary64 float_m6 /\ is_binary64 float_m12.
Proof. repeat split; reflexivity. Qed.

(** The four comparisons of [get_glaucoma_severity] on a finite float, read
    on its value. *)
Lemma band_tests_finite (m : spec_float) :
  is_binary64 m -> is_finite m = true ->
  (float_le float_m6 m = true <-> (-6 <= F2Q m)%Q) /\
  (float_lt m float_m3 = true <-> (F2Q m < -3)%Q) /\
  (float_le float_m12 m = true <-> (-12 <= F2Q m)%Q) /\
  (float_lt m float_m6 = true <-> (F2Q m < -6)%Q) /\
  (float_lt m float_m12 = true <-> (F2Q m < -12)%Q).
Proof.
  intros Hm Fm. destruct float_literals_binary64 as (H3 & H6 & H12).
  rewrite <- float_m3_value, <- float_m6_value, <- float_m12_value.
  repeat split; try (apply float_le_finite; easy); try (apply float_lt_finite; easy);
    try (apply (float_le_finite _ m); easy); try (apply (float_lt_finite m); easy).
Qed.

(** ** EyeData.get_glaucoma_severity *)

Lemma severity_unfold (self : EyeData) (m : spec_float) :
  diagnosis self = GLAUCOMA -> mean_defect self = Some m ->
  get_glaucoma_severity self =
    if float_le float_m6 m && float_lt m float_m3 then Some "Glaucoma Leve"
    else if float_le float_m12 m && float_lt m float_m6 then Some "Glaucoma Moderado"
    else if float_lt m float_m12 then Some "Glaucoma Severo"
    else Some "No clasificable".
Proof.
  intros Hd Hm. unfold get_glaucoma_severity. rewrite Hm, Hd.
  rewrite bool_decide_eq_true_2 by reflexivity. reflexivity.
Qed.

(** C1. For an eye diagnosed GLAUCOMA whose mean defect is set to the float
    [m], the severity is one of the four labels "Glaucoma Leve" (mild),
    "Glaucoma Moderado" (moderate), "Glaucoma Severo" (severe) and
    "No clasificable" (unclassifiable).  On a finite [m] of value [v] the label
    is mild exactly when [-6 <= v < -3], moderate exactly when
    [-12 <= v < -6], severe exactly when [v < -12] and unclassifiable exactly
    when [-3 <= v]: four bands without gap or overlap.  Minus infinity is
    severe, plus infinity unclassifiable, and so is NaN, which no comparison
    accepts. *)
Theorem severity_bands (self : EyeData) (m : spec_float) :
  diagnosis self = GLAUCOMA -> mean_defect self = Some m -> is_binary64 m ->
  let r := get_glaucoma_severity self in
  (r = Some "Glaucoma Leve" \/ r = Some "Glaucoma Moderado" \/
   r = Some "Glaucoma Severo" \/ r = Some "No clasificable") /\
  match m with
  | S754_nan => r = Some "No clasificable"
  | S754_infinity s => r = Some (if s then "Glaucoma Severo" else "No clasificable")
  | _ =>
      (r = Some "Glaucoma Leve" <-> (-6 <= F2Q m < -3)%Q) /\
      (r = Some "Glaucoma Moderado" <-> (-12 <= F2Q m < -6)%Q) /\
      (r = Some "Glaucoma Severo" <-> (F2Q m < -12)%Q) /\
      (r = Some "No clasificable" <-> (-3 <= F2Q m)%Q)
  end.
Proof.
  intros Hd Hm Hv r. subst r. rewrite (severity_unfold self m Hd Hm).
  split.
  { repeat match goal with |- context [if ?b then _ else _] => destruct b end; auto. }
  assert (Hfin : is_finite m = true ->
    let r := if float_le float_m6 m && float_lt m float_m3 then Some "Glaucoma Leve"
             else if float_le float_m12 m && float_lt m float_m6 then Some "Glaucoma Moderado"
             else if float_lt m float_m12 then Some "Glaucoma Severo"
             else Some "No clasificable" in
    (r = Some "Glaucoma Leve" <-> (-6 <= F2Q m < -3)%Q) /\
    (r = Some "Glaucoma Moderado" <-> (-12 <= F2Q m < -6)%Q) /\
    (r = Some "Glaucoma Severo" <-> (F2Q m < -12)%Q) /\
    (r = Some "No clasificable" <-> (-3 <= F2Q m)%Q)).
  { intros Fm. destruct (band_tests_finite m Hv Fm) as (A & B & C & D & E).
    generalize dependent (F2Q m). intros v A B C D E.
    destruct (float_le float_m6 m), (float_lt m float_m3), (float_le float_m12 m),
      (float_lt m float_m6), (float_lt m float_m12); cbn [andb];
      repeat match goal with
      | H : true = true <-> _ |- _ => apply proj1 in H; specialize (H eq_refl)
      | H : false = true <-> ?P |- _ =>
          assert (~ P) by (intros HP; apply H in HP; discriminate); clear H
      end;
      repeat split; intros; try discriminate; try reflexivity; try lra. }
  destruct m as [s | s | | s mm e]; [apply Hfin; reflexivity | | | apply Hfin; reflexivity].
  - destruct s; reflexivity.
  - reflexivity.
Qed.

Lemma severity_bands_witness :
  get_glaucoma_severity (eye_of RIGHT GLAUCOMA (Some float_m8_5)) = Some "Glaucoma Moderado"
  <-> (-12 <= F2Q float_m8_5 < -6)%Q.
Proof.
  exact (proj1 (proj2 (proj2
    (severity_bands (eye_of RIGHT GLAUCOMA (Some float_m8_5)) float_m8_5
       eq_refl eq_refl eq_refl)))).
Defined.

(** The band ends and the special floats, evaluated: [-3.0], both zeros,
    plus infinity and NaN are unclassifiable, [-12.0] is moderate, minus
    infinity is severe, and without a GLAUCOMA diagnosis or a mean defect
    there is no severity. *)
Example severity_samples :
  get_glaucoma_severity (eye_of RIGHT GLAUCOMA (Some float_m3)) = Some "No clasificable" /\
  get_glaucoma_severity (eye_of RIGHT GLAUCOMA (Some (float_zero false))) = Some "No clasificable" /\
  get_glaucoma_severity (eye_of RIGHT GLAUCOMA (Some (float_zero true))) = Some "No clasificable" /\
  get_glaucoma_severity (eye_of RIGHT GLAUCOMA (Some (S754_infinity false))) = Some "No clasificable" /\
  get_glaucoma_severity (eye_of RIGHT GLAUCOMA (Some S754_nan)) = Some "No clasificable" /\
  get_glaucoma_severity (eye_of RIGHT GLAUCOMA (Some float_m12)) = Some "Glaucoma Moderado" /\
  get_glaucoma_severity (eye_of RIGHT GLAUCOMA (Some (S754_infinity true))) = Some "Glaucoma Severo" /\
  get_glaucoma_severity (eye_of RIGHT HEALTHY (Some float_m8_5)) = None /\
  get_glaucoma_severity (eye_of RIGHT GLAUCOMA None) = None.
Proof. repeat split; reflexivity. Qed.

Example sample_floats_binary64 :
  is_binary64 float_m6_below /\ is_binary64 float_m8_5 /\ is_binary64 float_m2_5 /\
  (F2Q float_m8_5 == -17 # 2)%Q /\ (F2Q float_m2_5 == -5 # 2)%Q /\
  (-6000001 # 1000000 < F2Q float_m6_below)%Q /\ (F2Q float_m6_below < -6)%Q.
Proof. repeat split; reflexivity. Qed.

(** C6, as the code has it.  For an eye diagnosed GLAUCOMA, a mean defect of
    exactly [-6.0] is "Glaucoma Leve" (mild: the lower end of the mild band is
    inclusive), and the float [-6.0000001] just below it is
    "Glaucoma Moderado" (moderate). *)
Theorem severity_at_minus_six (e1 e2 : EyeData) :
  diagnosis e1 = GLAUCOMA -> mean_defect e1 = Some float_m6 ->
  diagnosis e2 = GLAUCOMA -> mean_defect e2 = Some float_m6_below ->
  get_glaucoma_severity e1 = Some "Glaucoma Leve" /\
  get_glaucoma_severity e2 = Some "Glaucoma Moderado".
Proof.
  intros Hd1 Hm1 Hd2 Hm2.
  rewrite (severity_unfold e1 _ Hd1 Hm1), (severity_unfold e2 _ Hd2 Hm2).
  split; reflexivity.
Qed.

Lemma severity_at_minus_six_witness :
  get_glaucoma_severity (eye_of LEFT GLAUCOMA (Some float_m6)) = Some "Glaucoma Leve" /\
  get_glaucoma_severity (eye_of LEFT GLAUCOMA (Some float_m6_below)) = Some "Glaucoma Moderado".
Proof.
  exact (severity_at_minus_six (eye_of LEFT GLAUCOMA (Some float_m6))
           (eye_of LEFT GLAUCOMA (Some float_m6_below)) eq_refl eq_refl eq_refl eq_refl).
Defined.

(** C6, as the claim words it, fails: at [-6.0] the severity is not
    "Glaucoma Moderado", and at [-6.0000001] it is not "Glaucoma Leve". *)
Lemma severity_at_minus_six_counterexample :
  get_glaucoma_severity (eye_of RIGHT GLAUCOMA (Some float_m6)) <> Some "Glaucoma Moderado" /\
  get_glaucoma_severity (eye_of RIGHT GLAUCOMA (Some float_m6_below)) <> Some "Glaucoma Leve".
Proof. split; vm_compute; discriminate. Qed.

(** ** EyeData.add_fundus_image *)

(** C8. Attaching an image raises [FileNotFoundError] exactly when the path
    does not exist, and then the eye record, its previous [fundus_image]
    included, is what it was; when the path exists the call returns normally
    and [fundus_image] is the path given.  No other attribute is ever
    assigned, and [fundus_image] changes only on success. *)
Theorem add_fundus_image_spec (path_exists : string -> bool)
    (self : EyeData) (image_path : string) :
  let self' := fst (add_fundus_image path_exists self image_path) in
  let r := snd (add_fundus_image path_exists self image_path) in
  ((exists msg, r = inl (FileNotFoundError msg)) <-> path_exists image_path = false) /\
  (r = inr tt <-> path_exists image_path = true) /\
  (path_exists image_path = false -> self' = self) /\
  (path_exists image_path = false -> fundus_image self' = fundus_image self) /\
  (path_exists image_path = true -> fundus_image self' = Some image_path) /\
  same_clinical self self' /\
  (fundus_image self' <> fundus_image self ->
     r = inr tt /\ fundus_image self' = Some image_path).
Proof.
  unfold add_fundus_image, same_clinical.
  destruct (path_exists image_path); cbn [fst snd].
  - split; [split; [intros [msg Hmsg]; discriminate | discriminate] |].
    split; [split; intros _; reflexivity |].
    split; [discriminate |]. split; [discriminate |].
    split; [intros _; reflexivity |]. split; [repeat split |].
    intros _. split; reflexivity.
  - split; [split; [intros _; reflexivity | intros _; eexists; reflexivity] |].
    split; [split; discriminate |].
    split; [intros _; reflexivity |]. split; [intros _; reflexivity |].
    split; [discriminate |]. split; [repeat split |].
    intros H. contradiction.
Qed.

Lemma add_fundus_image_spec_witness :
  fundus_image (fst (add_fundus_image (fun _ => true) (eye_of RIGHT HEALTHY None) "od.jpg")) =
  Some "od.jpg".
Proof.
  exact (proj1 (proj2 (proj2 (proj2 (proj2
    (add_fundus_image_spec (fun _ => true) (eye_of RIGHT HEALTHY None) "od.jpg")))))
    eq_refl).
Defined.

(** ** Patient *)

Lemma eye_has_spec (o : option EyeData) (d : DiagnosisStatus) :
  eye_has o d = true <-> exists e, o = Some e /\ diagnosis e = d.
Proof.
  destruct o as [e |]; cbn [eye_has].
  - rewrite bool_decide_eq_true. split.
    + intros H. exists e. split; [reflexivity | exact H].
    + intros (e' & [= <-] & H). exact H.
  - split; [discriminate | intros (e' & [=] & _)].
Qed.

Lemma some_eye_is_spec (p : Patient) (d : DiagnosisStatus) :
  eye_has (right_eye p) d || eye_has (left_eye p) d = true <-> some_eye_is p d.
Proof.
  rewrite orb_true_iff, !eye_has_spec. unfold some_eye_is. split.
  - intros [(e & He & Hd) | (e & He & Hd)]; exists e; auto.
  - intros (e & [He | He] & Hd); [left | right]; exists e; auto.
Qed.

(** C4. The patient-level diagnosis is "Sin datos" (no data) exactly when no
    eye is recorded; "Glaucoma" exactly when some recorded eye is GLAUCOMA;
    "Sospechoso" (suspect) exactly when none is GLAUCOMA and some is SUSPECT;
    "Sano" (healthy) exactly when an eye is recorded and none is GLAUCOMA or
    SUSPECT.  There is no fifth answer: a GLAUCOMA eye next to a HEALTHY one
    gives "Glaucoma". *)
Theorem patient_diagnosis_precedence (p : Patient) :
  let r := get_patient_diagnosis p in
  let no_eye := right_eye p = None /\ left_eye p = None in
  (r = "Sin datos" <-> no_eye) /\
  (r = "Glaucoma" <-> some_eye_is p GLAUCOMA) /\
  (r = "Sospechoso" <-> ~ some_eye_is p GLAUCOMA /\ some_eye_is p SUSPECT) /\
  (r = "Sano" <-> ~ no_eye /\ ~ some_eye_is p GLAUCOMA /\ ~ some_eye_is p SUSPECT) /\
  (r = "Sin datos" \/ r = "Glaucoma" \/ r = "Sospechoso" \/ r = "Sano") /\
  (forall e1 e2, (right_eye p = Some e1 /\ left_eye p = Some e2 \/
                  right_eye p = Some e2 /\ left_eye p = Some e1) ->
                 diagnosis e1 = GLAUCOMA -> diagnosis e2 = HEALTHY -> r = "Glaucoma").
Proof.
  intros r no_eye.
  assert (Hno : negb (truthy (right_eye p)) && negb (truthy (left_eye p)) = true <-> no_eye).
  { subst no_eye. destruct (right_eye p), (left_eye p); cbn; split;
      try discriminate; try (intros [? ?]; discriminate); auto. }
  assert (HG := some_eye_is_spec p GLAUCOMA). assert (HS := some_eye_is_spec p SUSPECT).
  assert (Hsome : forall d, some_eye_is p d -> ~ no_eye).
  { intros d (e & [He | He] & _) [Hr Hl]; congruence. }
  assert (Hmain :
    (r = "Sin datos" <-> no_eye) /\
    (r = "Glaucoma" <-> some_eye_is p GLAUCOMA) /\
    (r = "Sospechoso" <-> ~ some_eye_is p GLAUCOMA /\ some_eye_is p SUSPECT) /\
    (r = "Sano" <-> ~ no_eye /\ ~ some_eye_is p GLAUCOMA /\ ~ some_eye_is p SUSPECT) /\
    (r = "Sin datos" \/ r = "Glaucoma" \/ r = "Sospechoso" \/ r = "Sano")).
  { pose proof (Hsome GLAUCOMA) as HGn. pose proof (Hsome SUSPECT) as HSn. clear Hsome.
    subst r. unfold get_patient_diagnosis.
    destruct (negb (truthy (right_eye p)) && negb (truthy (left_eye p))) eqn:E0.
    { assert (N : no_eye) by (apply Hno; reflexivity).
      clear Hno HG HS. intuition (try discriminate; auto). }
    assert (N : ~ no_eye) by (intros N; apply Hno in N; discriminate).
    destruct (eye_has (right_eye p) GLAUCOMA || eye_has (left_eye p) GLAUCOMA) eqn:E1.
    { assert (G : some_eye_is p GLAUCOMA) by (apply HG; reflexivity).
      clear Hno HG HS. intuition (try discriminate; auto). }
    assert (G : ~ some_eye_is p GLAUCOMA) by (intros G; apply HG in G; discriminate).
    destruct (eye_has (right_eye p) SUSPECT || eye_has (left_eye p) SUSPECT) eqn:E2.
    { assert (S : some_eye_is p SUSPECT) by (apply HS; reflexivity).
      clear Hno HG HS. intuition (try discriminate; auto). }
    assert (S : ~ some_eye_is p SUSPECT) by (intros S; apply HS in S; discriminate).
    clear Hno HG HS. intuition (try discriminate; auto). }
  destruct Hmain as (H1 & H2 & H3 & H4 & H5).
  refine (conj H1 (conj H2 (conj H3 (conj H4 (conj H5 _))))).
  intros e1 e2 Hs Hd1 Hd2. apply H2. exists e1. split; [tauto | exact Hd1].
Qed.

Lemma patient_diagnosis_precedence_witness :
  get_patient_diagnosis demo_patient = "Glaucoma".
Proof.
  apply (patient_diagnosis_precedence demo_patient).
  exists (eye_of RIGHT GLAUCOMA (Some float_m8_5)). split; [left |]; reflexivity.
Defined.


(** A patient built without eyes satisfies the slot invariant. *)
Lemma Patient_init_no_eyes_slots (pid : string) (a : Z) (g : Gender) :
  eye_slots_ok (Patient_init pid a g None None).
Proof. split; intros e; discriminate. Qed.

(** C5, at the failing input.  [Patient.__init__] stores its [right_eye]
    argument without looking at the eye's own side: given a LEFT-typed eye it
    produces a patient whose right slot holds a LEFT eye, against the slot
    invariant that [set_eye_data] maintains. *)
Theorem Patient_init_misplaced_eye :
  let p := Patient_init "P001" 65 MALE (Some (eye_of LEFT HEALTHY None)) None in
  right_eye p = Some (eye_of LEFT HEALTHY None) /\
  eye_type (eye_of LEFT HEALTHY None) = LEFT /\
  ~ eye_slots_ok p.
Proof.
  cbn. split; [reflexivity | split; [reflexivity |]].
  intros [Hr _]. specialize (Hr _ eq_refl). discriminate.
Qed.

(** ** PapilaDataset.get_statistics *)

Lemma count_if_acc {A} (test : A -> bool) (l : list A) (a : Z) :
  fold_left (fun s p => if test p then s + 1 else s) l a = a + count_if test l.
Proof.
  unfold count_if. revert a. induction l as [| x l IH]; intros a; cbn [fold_left].
  - lia.
  - rewrite (IH (if test x then a + 1 else a)), (IH (if test x then 0 + 1 else 0)).
    destruct (test x); lia.
Qed.

Lemma count_if_cons {A} (test : A -> bool) (x : A) (l : list A) :
  count_if test (x :: l) = (if test x then 1 else 0) + count_if test l.
Proof.
  unfold count_if at 1. cbn [fold_left]. rewrite count_if_acc. destruct (test x); lia.
Qed.

(** The loop touches neither the total nor the gender counts, and its effect
    on the diagnosis buckets is [count_diagnosis], patient after patient. *)
Lemma statistics_loop (l : list Patient) (total_age : Z) (stats : Statistics) :
  let r := fold_left statistics_step l (total_age, stats) in
  total_patients r.2 = total_patients stats /\
  gender_distribution r.2 = gender_distribution stats /\
  diagnosis_distribution r.2 = fold_left count_diagnosis l (diagnosis_distribution stats) /\
  age_avg (age_stats r.2) = age_avg (age_stats stats).
Proof.
  revert total_age stats. induction l as [| p l IH]; intros total_age stats; cbn [fold_left].
  - cbn. auto.
  - unfold statistics_step at 2 4 6 8.
    destruct (IH (total_age + age p)
      {| total_patients := total_patients stats;
         gender_distribution := gender_distribution stats;
         diagnosis_distribution := count_diagnosis (diagnosis_distribution stats) p;
         age_stats :=
           {| age_min := py_min (age_min (age_stats stats)) (Int (age p));
              age_max := py_max (age_max (age_stats stats)) (Int (age p));
              age_avg := age_avg (age_stats stats) |} |}) as (H1 & H2 & H3 & H4).
    cbn in *. auto.
Qed.

Lemma finish_statistics_fields {V} (ps : dict V) (acc : Z * Statistics) :
  total_patients (finish_statistics ps acc) = total_patients acc.2 /\
  gender_distribution (finish_statistics ps acc) = gender_distribution acc.2 /\
  diagnosis_distribution (finish_statistics ps acc) = diagnosis_distribution acc.2 /\
  age_min (age_stats (finish_statistics ps acc)) = age_min (age_stats acc.2) /\
  age_max (age_stats (finish_statistics ps acc)) = age_max (age_stats acc.2).
Proof. destruct acc as [t s], ps; cbn; auto. Qed.

Lemma get_statistics_fields (self : PapilaDataset) :
  let vals := dict_values (patients self) in
  total_patients (get_statistics self) = dict_len (patients self) /\
  male (gender_distribution (get_statistics self)) =
    count_if (fun p => bool_decide (gender p = MALE)) vals /\
  female (gender_distribution (get_statistics self)) =
    count_if (fun p => bool_decide (gender p = FEMALE)) vals /\
  diagnosis_distribution (get_statistics self) =
    fold_left count_diagnosis vals
      {| healthy := 0; glaucoma := 0; suspect := 0; mixed := 0 |}.
Proof.
  intros vals. unfold get_statistics.
  destruct (finish_statistics_fields (patients self)
    (fold_left statistics_step (dict_values (patients self))
       (0, initial_statistics (patients self)))) as (F1 & F2 & F3 & _).
  destruct (statistics_loop (dict_values (patients self)) 0
    (initial_statistics (patients self))) as (L1 & L2 & L3 & _).
  cbn zeta in L1, L2, L3.
  rewrite F1, F2, F3, L1, L2, L3. cbn. auto.
Qed.

(** C2, as the code has it.  On a dataset without patients the statistics
    are: total 0, 0 male and 0 female, the four diagnosis buckets 0, age
    average 0, and the age minimum and maximum still at their initial values
    [float('inf')] and [float('-inf')]. *)
Theorem empty_statistics (self : PapilaDataset) :
  patients self = [] ->
  let s := get_statistics self in
  total_patients s = 0 /\
  male (gender_distribution s) = 0 /\ female (gender_distribution s) = 0 /\
  healthy (diagnosis_distribution s) = 0 /\ glaucoma (diagnosis_distribution s) = 0 /\
  suspect (diagnosis_distribution s) = 0 /\ mixed (diagnosis_distribution s) = 0 /\
  age_avg (age_stats s) = 0%Q /\
  age_min (age_stats s) = Inf /\ age_max (age_stats s) = NegInf.
Proof.
  intros Hp. unfold get_statistics. rewrite Hp. cbn. repeat split; reflexivity.
Qed.

Lemma empty_statistics_witness :
  age_min (age_stats (get_statistics PapilaDataset_init)) = Inf.
Proof.
  exact (proj1 (proj2 (proj2 (proj2 (proj2 (proj2 (proj2 (proj2 (proj2
    (empty_statistics PapilaDataset_init eq_refl)))))))))).
Defined.

(** C2, as the claim words it, fails: on the empty dataset the age minimum and
    maximum are the infinite sentinels, not absent values. *)
Lemma empty_statistics_counterexample :
  age_min (age_stats (get_statistics PapilaDataset_init)) = Inf /\
  age_max (age_stats (get_statistics PapilaDataset_init)) = NegInf.
Proof. split; reflexivity. Qed.

(** C3. The loop of [get_statistics] treats each patient with
    [count_diagnosis], which adds 1 to exactly one bucket or to none: to the
    bucket of [d] when both eyes are recorded with the same diagnosis [d]; to
    [mixed] when the two sides differ, which includes every patient with a
    single recorded eye; to no bucket when neither eye is recorded. *)
Theorem statistics_buckets (self : PapilaDataset) (dd : DiagnosisDistribution)
    (p : Patient) :
  diagnosis_distribution (get_statistics self) =
    fold_left count_diagnosis (dict_values (patients self))
      {| healthy := 0; glaucoma := 0; suspect := 0; mixed := 0 |} /\
  (forall r l, right_eye p = Some r -> left_eye p = Some l ->
     diagnosis r = diagnosis l ->
     count_diagnosis dd p =
       match diagnosis r with
       | HEALTHY => {| healthy := healthy dd + 1; glaucoma := glaucoma dd;
                       suspect := suspect dd; mixed := mixed dd |}
       | GLAUCOMA => {| healthy := healthy dd; glaucoma := glaucoma dd + 1;
                        suspect := suspect dd; mixed := mixed dd |}
       | SUSPECT => {| healthy := healthy dd; glaucoma := glaucoma dd;
                       suspect := suspect dd + 1; mixed := mixed dd |}
       end) /\
  (diagnosis_or_None (right_eye p) <> diagnosis_or_None (left_eye p) ->
     count_diagnosis dd p =
       {| healthy := healthy dd; glaucoma := glaucoma dd;
          suspect := suspect dd; mixed := mixed dd + 1 |}) /\
  (truthy (right_eye p) <> truthy (left_eye p) ->
     diagnosis_or_None (right_eye p) <> diagnosis_or_None (left_eye p)) /\
  (right_eye p = None -> left_eye p = None -> count_diagnosis dd p = dd).
Proof.
  split; [apply get_statistics_fields |]. unfold count_diagnosis.
  repeat split.
  - intros r l Hr Hl Hd. rewrite Hr, Hl. cbn [diagnosis_or_None]. rewrite Hd.
    rewrite bool_decide_eq_true_2 by reflexivity.
    destruct (diagnosis l); reflexivity.
  - intros Hne. rewrite bool_decide_eq_false_2 by exact Hne. reflexivity.
  - destruct (right_eye p), (left_eye p); cbn; congruence.
  - intros Hr Hl. rewrite Hr, Hl. reflexivity.
Qed.

Lemma statistics_buckets_witness :
  count_diagnosis {| healthy := 0; glaucoma := 0; suspect := 0; mixed := 0 |}
    (Patient_init "P002" 70 FEMALE (Some (eye_of RIGHT SUSPECT None)) None) =
  {| healthy := 0; glaucoma := 0; suspect := 0; mixed := 0 + 1 |}.
Proof.
  apply (statistics_buckets PapilaDataset_init
           {| healthy := 0; glaucoma := 0; suspect := 0; mixed := 0 |}
           (Patient_init "P002" 70 FEMALE (Some (eye_of RIGHT SUSPECT None)) None)).
  cbn. discriminate.
Defined.

Lemma count_diagnosis_total (dd : DiagnosisDistribution) (p : Patient) :
  bucket_total (count_diagnosis dd p) =
  bucket_total dd + (if has_no_eye p then 0 else 1).
Proof.
  unfold count_diagnosis, has_no_eye, bucket_total.
  destruct (right_eye p) as [r |], (left_eye p) as [l |]; cbn [diagnosis_or_None truthy negb andb].
  - destruct (diagnosis r), (diagnosis l); repeat case_bool_decide; try congruence; cbn; lia.
  - rewrite bool_decide_eq_false_2 by discriminate. cbn. lia.
  - rewrite bool_decide_eq_false_2 by discriminate. cbn. lia.
  - repeat case_bool_decide; try congruence; cbn; lia.
Qed.

Lemma fold_count_diagnosis_total (l : list Patient) (dd : DiagnosisDistribution) :
  bucket_total (fold_left count_diagnosis l dd) + count_if has_no_eye l =
  bucket_total dd + Z.of_nat (length l).
Proof.
  revert dd. induction l as [| p l IH]; intros dd.
  - cbn. lia.
  - cbn [fold_left]. rewrite count_if_cons.
    specialize (IH (count_diagnosis dd p)). rewrite count_diagnosis_total in IH.
    change (length (p :: l)) with (S (length l)). destruct (has_no_eye p); lia.
Qed.

Lemma gender_counts_total (l : list Patient) :
  count_if (fun p => bool_decide (gender p = MALE)) l +
  count_if (fun p => bool_decide (gender p = FEMALE)) l = Z.of_nat (length l).
Proof.
  induction l as [| p l IH].
  - reflexivity.
  - rewrite !count_if_cons. change (length (p :: l)) with (S (length l)).
    destruct (gender p); repeat case_bool_decide; try congruence; lia.
Qed.

(** C9. In the statistics of any dataset the four diagnosis buckets add up to
    the total number of patients less those with neither eye recorded, and the
    male and female counts add up to the total. *)
Theorem statistics_totals (self : PapilaDataset) :
  let s := get_statistics self in
  let dd := diagnosis_distribution s in
  let unrecorded := count_if has_no_eye (dict_values (patients self)) in
  healthy dd + glaucoma dd + suspect dd + mixed dd = total_patients s - unrecorded /\
  healthy dd + glaucoma dd + suspect dd + mixed dd + unrecorded = total_patients s /\
  male (gender_distribution s) + female (gender_distribution s) = total_patients s.
Proof.
  intros s dd unrecorded. subst s dd unrecorded.
  destruct (get_statistics_fields self) as (Ht & Hm & Hf & Hd).
  rewrite Ht, Hm, Hf, Hd.
  pose proof (fold_count_diagnosis_total (dict_values (patients self))
    {| healthy := 0; glaucoma := 0; suspect := 0; mixed := 0 |}) as Hb.
  pose proof (gender_counts_total (dict_values (patients self))) as Hg.
  unfold bucket_total in Hb. cbn [healthy glaucoma suspect mixed] in Hb.
  unfold dict_len. unfold dict_values in *. rewrite length_map in Hb, Hg. lia.
Qed.

(** ** PapilaDataset.filter_patients *)

Lemma comprehension_total {A} (test : A -> exn + bool) (f : A -> bool) (l : list A) :
  (forall x, test x = inr (f x)) -> comprehension test l = inr (List.filter f l).
Proof.
  intros Ht. induction l as [| x l IH]; cbn [comprehension List.filter].
  - reflexivity.
  - rewrite Ht, IH. cbn. reflexivity.
Qed.

Lemma filter_twice {A} (f g : A -> bool) (l : list A) :
  List.filter g (List.filter f l) = List.filter (fun x => f x && g x) l.
Proof.
  induction l as [| x l IH]; cbn [List.filter].
  - reflexivity.
  - destruct (f x); cbn [List.filter andb]; [destruct (g x) |]; rewrite IH; reflexivity.
Qed.

Lemma filter_all {A} (l : list A) : List.filter (fun _ => true) l = l.
Proof. induction l as [| x l IH]; cbn; [| rewrite IH]; reflexivity. Qed.

(** The four recognised keys are distinct, so [satisfiesb] decides
    [satisfies]. *)
Lemma satisfiesb_spec (p : Patient) (kv : string * value) :
  satisfiesb p kv = true <-> satisfies p kv.
Proof.
  destruct kv as [key v]. unfold satisfiesb, satisfies. cbn [fst snd].
  destruct (String.eqb_spec key "age_min") as [-> | N1].
  { destruct v; split; try discriminate;
      try solve [intros (H & _); destruct (H eq_refl) as (z' & [=] & _)].
    - intros H%Z.leb_le. repeat split; try discriminate. intros _. eauto.
    - intros (H & _). destruct (H eq_refl) as (z' & [= <-] & Hz). apply Z.leb_le, Hz. }
  destruct (String.eqb_spec key "age_max") as [-> | N2].
  { destruct v; split; try discriminate;
      try solve [intros (_ & H & _); destruct (H eq_refl) as (z' & [=] & _)].
    - intros H%Z.leb_le. repeat split; try discriminate. intros _. eauto.
    - intros (_ & H & _). destruct (H eq_refl) as (z' & [= <-] & Hz). apply Z.leb_le, Hz. }
  destruct (String.eqb_spec key "gender") as [-> | N3].
  { destruct v; split; try discriminate;
      try solve [intros (_ & _ & H & _); discriminate (H eq_refl)].
    - intros H%bool_decide_eq_true. repeat split; try discriminate. intros _. congruence.
    - intros (_ & _ & H & _). specialize (H eq_refl). apply bool_decide_eq_true. congruence. }
  destruct (String.eqb_spec key "diagnosis") as [-> | N4].
  { destruct v; split; try discriminate;
      try solve [intros (_ & _ & _ & H); destruct (H eq_refl) as (d' & [=] & _)].
    - intros H%some_eye_is_spec. repeat split; try discriminate. intros _. eauto.
    - intros (_ & _ & _ & H). destruct (H eq_refl) as (d' & [= <-] & Hd).
      apply some_eye_is_spec, Hd. }
  split; [| reflexivity]. intros _. repeat split; intros; congruence.
Qed.

(** One turn of the loop keeps the patients that satisfy the keyword. *)
Lemma filter_step_spec (l : list Patient) (kv : string * value) :
  age_bounds_are_int kv ->
  filter_step l kv = inr (List.filter (fun p => satisfiesb p kv) l).
Proof.
  destruct kv as [key v]. unfold age_bounds_are_int, filter_step, kwarg_test, satisfiesb.
  cbn [fst snd]. intros Hty.
  destruct (String.eqb_spec key "age_min") as [-> | N1].
  { destruct Hty as [z ->]; [auto |]. apply comprehension_total. reflexivity. }
  destruct (String.eqb_spec key "age_max") as [-> | N2].
  { destruct Hty as [z ->]; [auto |]. apply comprehension_total. reflexivity. }
  destruct (String.eqb_spec key "gender") as [-> | N3].
  { apply comprehension_total. intros p. destruct v; reflexivity. }
  destruct (String.eqb_spec key "diagnosis") as [-> | N4].
  { apply comprehension_total. intros p. unfold eye_matches, eye_has.
    destruct v, (right_eye p), (left_eye p); reflexivity. }
  rewrite filter_all. reflexivity.
Qed.

Lemma filter_loop_spec (kwargs : list (string * value)) (l : list Patient) :
  Forall age_bounds_are_int kwargs ->
  filter_loop kwargs l = inr (List.filter (fun p => forallb (satisfiesb p) kwargs) l).
Proof.
  intros Hty. revert l. induction Hty as [| kv kwargs Hkv Hty IH]; intros l.
  - cbn. rewrite filter_all. reflexivity.
  - cbn [filter_loop forallb]. rewrite (filter_step_spec l kv Hkv). cbn.
    rewrite IH, filter_twice. reflexivity.
Qed.

(** C7. Whatever the dataset and the keyword arguments (with the age bounds,
    when given, being integers), [filter_patients] returns without raising,
    and returns the patients of the dataset, in the dataset's order, that
    satisfy every keyword: [age_min] as an inclusive lower bound on the age,
    [age_max] as an inclusive upper bound, [gender] as an exact match,
    [diagnosis] as a match on either recorded eye.  Keys other than these four
    ask nothing of a patient, whatever their value, and without keywords the
    result is the list of all patients. *)
Theorem filter_patients_conjunction (self : PapilaDataset)
    (kwargs : list (string * value)) :
  Forall age_bounds_are_int kwargs ->
  filter_patients self kwargs =
    inr (List.filter (fun p => forallb (satisfiesb p) kwargs)
           (dict_values (patients self))) /\
  (forall p kv, satisfiesb p kv = true <-> satisfies p kv) /\
  (forall p key v,
     key <> "age_min" -> key <> "age_max" -> key <> "gender" -> key <> "diagnosis" ->
     satisfies p (key, v)) /\
  filter_patients self [] = inr (dict_values (patients self)).
Proof.
  intros Hty. split; [apply filter_loop_spec, Hty |].
  split; [apply satisfiesb_spec |]. split.
  - intros p key v N1 N2 N3 N4. repeat split; cbn [fst]; intros; congruence.
  - reflexivity.
Qed.

Lemma filter_patients_conjunction_witness :
  filter_patients demo_dataset [("age_min", VInt 60); ("region", VStr "north")] =
  inr [demo_patient].
Proof.
  refine (eq_trans (proj1 (filter_patients_conjunction demo_dataset
            [("age_min", VInt 60); ("region", VStr "north")] _)) _).
  - repeat constructor; cbn [fst snd].
    + intros _. exists 60. reflexivity.
    + intros [H | H]; discriminate.
  - vm_compute. reflexivity.
Defined.

(** ** The module by reference: what a call leaves in the store *)

Section HeapFrame.

Import Heap.

Lemma run_bind {A B} (m : M A) (k : A -> M B) (h : heap) :
  (m ≫= k) h =
  match m h with
  | (inl e, h') => (inl e, h')
  | (inr x, h') => k x h'
  end.
Proof. reflexivity. Qed.

Lemma reads_only_bind {A B} (m : M A) (k : A -> M B) :
  reads_only m -> (forall a, reads_only (k a)) -> reads_only (m ≫= k).
Proof.
  intros Hm Hk h. rewrite run_bind. specialize (Hm h).
  destruct (m h) as [[e | a] h']; cbn in Hm; subst h'; [reflexivity | apply Hk].
Qed.

Lemma reads_only_ret {A} (a : A) : reads_only (mret a : M A).
Proof. intros h. reflexivity. Qed.

Lemma reads_only_raise {A} (e : exn) : reads_only (raise e : M A).
Proof. intros h. reflexivity. Qed.

Lemma reads_only_lift {A} (r : exn + A) : reads_only (lift r).
Proof. intros h. reflexivity. Qed.

Lemma reads_only_deref (l : loc) : reads_only (deref l).
Proof. intros h. unfold deref. destruct (h !! l); reflexivity. Qed.

Lemma reads_only_load_eye (r : option loc) : reads_only (load_eye r).
Proof.
  destruct r as [l |]; [| apply reads_only_ret].
  apply reads_only_bind; [apply reads_only_deref |].
  intros []; first [apply reads_only_ret | apply reads_only_raise].
Qed.

Lemma reads_only_load_patient (l : loc) : reads_only (load_patient l).
Proof.
  apply reads_only_bind; [apply reads_only_deref |].
  intros []; try apply reads_only_raise.
  apply reads_only_bind; [apply reads_only_load_eye | intros r].
  apply reads_only_bind; [apply reads_only_load_eye | intros l'].
  apply reads_only_ret.
Qed.

Lemma reads_only_load_list (l : loc) : reads_only (load_list l).
Proof.
  apply reads_only_bind; [apply reads_only_deref |].
  intros []; first [apply reads_only_ret | apply reads_only_raise].
Qed.

Lemma reads_only_load_statistics (l : loc) : reads_only (load_statistics l).
Proof.
  apply reads_only_bind; [apply reads_only_deref |].
  intros []; first [apply reads_only_ret | apply reads_only_raise].
Qed.

Lemma reads_only_load_patients (self : loc) : reads_only (load_patients self).
Proof.
  apply reads_only_bind; [apply reads_only_deref |].
  intros []; try apply reads_only_raise.
  apply reads_only_bind; [apply reads_only_deref |].
  intros []; first [apply reads_only_ret | apply reads_only_raise].
Qed.

Lemma reads_only_comprehension (test : Patient -> exn + bool) (items : list loc) :
  reads_only (comprehension test items).
Proof.
  induction items as [| x rest IH]; [apply reads_only_ret |].
  cbn [comprehension].
  apply reads_only_bind; [apply reads_only_load_patient | intros p].
  apply reads_only_bind; [apply reads_only_lift | intros b].
  apply reads_only_bind; [exact IH | intros kept]. apply reads_only_ret.
Qed.

Lemma reads_only_count_if (test : Patient -> bool) (items : list loc) :
  reads_only (Heap.count_if test items).
Proof.
  induction items as [| x rest IH]; [apply reads_only_ret |].
  cbn [Heap.count_if].
  apply reads_only_bind; [apply reads_only_load_patient | intros p].
  apply reads_only_bind; [exact IH | intros n]. apply reads_only_ret.
Qed.

(** A new object leaves every object of the store as it was, at a location
    the store did not use. *)
Lemma alloc_fresh (o : object) (h : heap) :
  h !! fresh (dom h) = None /\ (alloc o h).1 = inr (fresh (dom h)) /\
  (alloc o h).2 = <[fresh (dom h) := o]> h /\ h ⊆ (alloc o h).2.
Proof.
  assert (Hf : h !! fresh (dom h) = None) by (apply not_elem_of_dom, is_fresh).
  repeat split; [exact Hf |]. cbn. apply insert_subseteq, Hf.
Qed.

Lemma filter_step_frame (cur : loc) (kv : string * value) (h : heap) :
  unchanged h (filter_step cur kv h).2 /\
  forall l, (filter_step cur kv h).1 = inr l ->
    (l = cur /\ (filter_step cur kv h).2 = h) \/
    (h !! l = None /\ is_list (filter_step cur kv h).2 l).
Proof.
  unfold filter_step, unchanged. destruct (kwarg_test kv.1 kv.2) as [test |].
  - rewrite run_bind. pose proof (reads_only_load_list cur h) as Hl.
    destruct (load_list cur h) as [[e | items] h1]; cbn in Hl; subst h1.
    { split; [reflexivity | intros l; discriminate]. }
    rewrite run_bind. pose proof (reads_only_comprehension test items h) as Hc.
    destruct (comprehension test items h) as [[e | kept] h1]; cbn in Hc; subst h1.
    { split; [reflexivity | intros l; discriminate]. }
    destruct (alloc_fresh (OList kept) h) as (Hf & Hr & Hh & Hsub).
    split; [exact Hsub |]. intros l Hl. right. rewrite Hr in Hl. injection Hl as <-.
    split; [exact Hf |]. exists kept. rewrite Hh. apply lookup_insert_eq.
  - split; [reflexivity |]. intros l [= <-]. left. split; reflexivity.
Qed.

Lemma filter_loop_frame (kwargs : list (string * value)) (cur : loc) (h : heap) :
  is_list h cur ->
  unchanged h (filter_loop kwargs cur h).2 /\
  forall l, (filter_loop kwargs cur h).1 = inr l ->
    is_list (filter_loop kwargs cur h).2 l /\ (l = cur \/ h !! l = None).
Proof.
  unfold unchanged. revert cur h. induction kwargs as [| kv rest IH]; intros cur h Hcur.
  - split; [reflexivity |]. intros l [= <-]. split; [exact Hcur | left; reflexivity].
  - cbn [filter_loop]. rewrite run_bind.
    destruct (filter_step_frame cur kv h) as [Hsub Hres]. unfold unchanged in Hsub.
    destruct (filter_step cur kv h) as [[e | cur'] h1]; cbn [fst snd] in Hsub, Hres.
    { split; [exact Hsub | intros l; discriminate]. }
    assert (Hcur' : is_list h1 cur').
    { destruct (Hres cur' eq_refl) as [[-> ->] | [_ Hl]]; assumption. }
    destruct (IH cur' h1 Hcur') as [Hsub' Hres'].
    split; [etrans; eassumption |].
    intros l Hl. destruct (Hres' l Hl) as [Hlist [-> | Hnew]].
    + split; [exact Hlist |].
      destruct (Hres cur' eq_refl) as [[-> _] | [Hf _]]; [left; reflexivity | right; exact Hf].
    + split; [exact Hlist |]. right. eapply lookup_weaken_None; eassumption.
Qed.

Lemma filter_patients_frame (self : loc) (kwargs : list (string * value)) (h : heap) :
  unchanged h (Heap.filter_patients self kwargs h).2 /\
  forall l, (Heap.filter_patients self kwargs h).1 = inr l ->
    h !! l = None /\ is_list (Heap.filter_patients self kwargs h).2 l.
Proof.
  unfold Heap.filter_patients, unchanged. rewrite run_bind.
  pose proof (reads_only_load_patients self h) as Hl.
  destruct (load_patients self h) as [[e | entries] h1]; cbn in Hl; subst h1.
  { split; [reflexivity | intros l; discriminate]. }
  rewrite run_bind.
  destruct (alloc_fresh (OList (dict_values entries)) h) as (Hf & Hr & Hh & Hsub).
  destruct (alloc (OList (dict_values entries)) h) as [r h1]; cbn [fst snd] in Hr, Hh, Hsub.
  subst r.
  assert (Hcur : is_list h1 (fresh (dom h))).
  { exists (dict_values entries). rewrite Hh. apply lookup_insert_eq. }
  destruct (filter_loop_frame kwargs (fresh (dom h)) h1 Hcur) as [Hsub' Hres].
  unfold unchanged in Hsub'. split; [etrans; eassumption |].
  intros l Hl. destruct (Hres l Hl) as [Hlist [-> | Hnew]].
  - split; assumption.
  - split; [eapply lookup_weaken_None; eassumption | exact Hlist].
Qed.

(** The loop of [get_statistics] assigns to the dictionary it was given and to
    nothing else. *)
Lemma statistics_loop_frame (h0 : heap) (stats : loc) (items : list loc)
    (total_age : Z) (h : heap) :
  h0 !! stats = None -> unchanged h0 h ->
  unchanged h0 (statistics_loop stats items total_age h).2.
Proof.
  unfold unchanged. intros Hnew. revert total_age h.
  induction items as [| x rest IH]; intros total_age h Hsub; [exact Hsub |].
  cbn [statistics_loop]. rewrite run_bind.
  pose proof (reads_only_load_patient x h) as Hp.
  destruct (load_patient x h) as [[e | patient] h1]; cbn in Hp; subst h1; [exact Hsub |].
  rewrite run_bind. pose proof (reads_only_load_statistics stats h) as Hs.
  destruct (load_statistics stats h) as [[e | s] h1]; cbn in Hs; subst h1; [exact Hsub |].
  rewrite run_bind. cbn [store]. apply IH. apply insert_subseteq_r; assumption.
Qed.

Lemma get_statistics_frame (self : loc) (h : heap) :
  unchanged h (Heap.get_statistics self h).2 /\
  forall l, (Heap.get_statistics self h).1 = inr l -> h !! l = None.
Proof.
  unfold Heap.get_statistics, unchanged. rewrite run_bind.
  pose proof (reads_only_load_patients self h) as Hl.
  destruct (load_patients self h) as [[e | entries] h1]; cbn in Hl; subst h1.
  { split; [reflexivity | intros l; discriminate]. }
  rewrite run_bind.
  pose proof (reads_only_count_if (fun p => bool_decide (gender p = MALE))
                (dict_values entries) h) as Hm.
  destruct (Heap.count_if _ (dict_values entries) h) as [[e | n_male] h1];
    cbn in Hm; subst h1.
  { split; [reflexivity | intros l; discriminate]. }
  rewrite run_bind.
  pose proof (reads_only_count_if (fun p => bool_decide (gender p = FEMALE))
                (dict_values entries) h) as Hf.
  destruct (Heap.count_if _ (dict_values entries) h) as [[e | n_female] h1];
    cbn in Hf; subst h1.
  { split; [reflexivity | intros l; discriminate]. }
  rewrite run_bind.
  match goal with |- context [alloc ?o h] =>
    destruct (alloc_fresh o h) as (Hnew & Hr & Hh & Hsub);
    destruct (alloc o h) as [r h1] end.
  cbn [fst snd] in Hr, Hh, Hsub. subst r.
  set (stats := fresh (dom h)) in *. rewrite run_bind.
  pose proof (statistics_loop_frame h stats (dict_values entries) 0 h1 Hnew Hsub) as Hloop.
  unfold unchanged in Hloop.
  destruct (statistics_loop stats (dict_values entries) 0 h1) as [[e | total_age] h2];
    cbn [snd] in Hloop.
  { split; [exact Hloop | intros l; discriminate]. }
  rewrite run_bind. destruct entries as [| entry entries].
  - cbn. split; [exact Hloop |]. intros l [= <-]. exact Hnew.
  - rewrite run_bind. pose proof (reads_only_load_statistics stats h2) as Hs.
    destruct (load_statistics stats h2) as [[e | s] h3]; cbn in Hs; subst h3.
    { split; [exact Hloop | intros l; discriminate]. }
    cbn. split; [apply insert_subseteq_r; assumption |]. intros l [= <-]. exact Hnew.
Qed.

End HeapFrame.

(** C10. Run in any store [h] on any dataset reference, [filter_patients] and
    [get_statistics] leave every object of [h] as it was: the dataset, its
    dictionary of patients, each patient and each eye record.  When
    [filter_patients] returns, it returns a list object at a location [h] did
    not use, so whatever is later assigned to that list, the objects of [h]
    stay as they were. *)
Theorem filter_and_statistics_read_only (self : Heap.loc)
    (kwargs : list (string * value)) (h : gmap Heap.loc Heap.object) :
  let after_filter := (Heap.filter_patients self kwargs h).2 in
  let after_statistics := (Heap.get_statistics self h).2 in
  Heap.unchanged h after_filter /\
  Heap.unchanged h after_statistics /\
  (forall l o, h !! l = Some o ->
     after_filter !! l = Some o /\ after_statistics !! l = Some o) /\
  (forall l, (Heap.filter_patients self kwargs h).1 = inr l ->
     h !! l = None /\ Heap.is_list after_filter l /\
     forall o', Heap.unchanged h (<[l := o']> after_filter)).
Proof.
  intros after_filter after_statistics.
  destruct (filter_patients_frame self kwargs h) as [Hf Hres].
  destruct (get_statistics_frame self h) as [Hs _].
  fold after_filter in Hf, Hres. fold after_statistics in Hs.
  split; [exact Hf |]. split; [exact Hs |]. split.
  - intros l o Hl. unfold Heap.unchanged in Hf, Hs.
    split; eapply lookup_weaken; eassumption.
  - intros l Hl. destruct (Hres l Hl) as [Hnew Hlist].
    split; [exact Hnew |]. split; [exact Hlist |].
    intros o'. unfold Heap.unchanged in *. apply insert_subseteq_r; assumption.
Qed.

Lemma filter_and_statistics_read_only_witness :
  (Heap.filter_patients 1%positive [("age_min", VInt 60)] Heap.demo_heap).2 !! 3%positive =
    Some (Heap.OPatient "P001" 65 MALE None None).
Proof.
  apply (filter_and_statistics_read_only 1%positive [("age_min", VInt 60)] Heap.demo_heap).
  reflexivity.
Defined.

(** ** The module by reference computes what the module by value computes *)

Lemma deref_weaken (h h' : gmap Heap.loc Heap.object) (l : Heap.loc) (o : Heap.object) :
  h ⊆ h' -> (Heap.deref l h).1 = inr o -> Heap.deref l h' = (inr o, h').
Proof.
  unfold Heap.deref. intros Hsub. destruct (h !! l) as [o' |] eqn:E; [| discriminate].
  intros [= <-]. rewrite (lookup_weaken _ _ _ _ E Hsub). reflexivity.
Qed.

Lemma load_eye_weaken (h h' : gmap Heap.loc Heap.object) (r : option Heap.loc)
    (e : option EyeData) :
  h ⊆ h' -> (Heap.load_eye r h).1 = inr e -> Heap.load_eye r h' = (inr e, h').
Proof.
  intros Hsub. destruct r as [l |]; cbn [Heap.load_eye].
  - rewrite !run_bind. destruct (Heap.deref l h) as [[x | o] h1] eqn:E; [discriminate |].
    assert (Hd : (Heap.deref l h).1 = inr o) by (rewrite E; reflexivity).
    rewrite (deref_weaken h h' l o Hsub Hd).
    destruct o; try discriminate. intros [= <-]. reflexivity.
  - intros [= <-]. reflexivity.
Qed.

Lemma patient_at_weaken (h h' : gmap Heap.loc Heap.object) (l : Heap.loc) (p : Patient) :
  h ⊆ h' -> Heap.patient_at h l p -> Heap.load_patient l h' = (inr p, h').
Proof.
  unfold Heap.patient_at, Heap.load_patient. intros Hsub. rewrite !run_bind.
  destruct (Heap.deref l h) as [[x | o] h1] eqn:E; [discriminate |].
  assert (Hd : (Heap.deref l h).1 = inr o) by (rewrite E; reflexivity).
  pose proof (reads_only_deref l h) as Hh. rewrite E in Hh. cbn in Hh. subst h1.
  rewrite (deref_weaken h h' l o Hsub Hd).
  destruct o as [| pid a g re le | | | |]; try discriminate.
  rewrite !run_bind.
  pose proof (reads_only_load_eye re h) as Hr.
  destruct (Heap.load_eye re h) as [[x | r] h1] eqn:Er; [discriminate |].
  cbn in Hr. subst h1.
  rewrite (load_eye_weaken h h' re r Hsub) by (rewrite Er; reflexivity).
  rewrite !run_bind.
  destruct (Heap.load_eye le h) as [[x | l'] h1] eqn:El; [discriminate |].
  rewrite (load_eye_weaken h h' le l' Hsub) by (rewrite El; reflexivity).
  intros [= <-]. reflexivity.
Qed.

Lemma patients_at_weaken (h h' : gmap Heap.loc Heap.object) (items : list Heap.loc)
    (ps : list Patient) :
  h ⊆ h' -> Forall2 (Heap.patient_at h) items ps -> Forall2 (Heap.patient_at h') items ps.
Proof.
  intros Hsub HF. induction HF as [| x p items ps Hx HF IH]; constructor; [| exact IH].
  unfold Heap.patient_at. rewrite (patient_at_weaken h h' x p Hsub Hx). reflexivity.
Qed.

Lemma comprehension_refines (test : Patient -> exn + bool) (h : gmap Heap.loc Heap.object)
    (items : list Heap.loc) (ps : list Patient) :
  Forall2 (Heap.patient_at h) items ps ->
  match comprehension test ps with
  | inl e => Heap.comprehension test items h = (inl e, h)
  | inr kept_ps =>
      exists kept, Heap.comprehension test items h = (inr kept, h) /\
                   Forall2 (Heap.patient_at h) kept kept_ps
  end.
Proof.
  intros HF. induction HF as [| x p items ps Hx HF IH]; cbn [comprehension Heap.comprehension].
  - exists []. split; [reflexivity | constructor].
  - rewrite run_bind, (patient_at_weaken h h x p (reflexivity h) Hx), run_bind.
    unfold Heap.lift. destruct (test p) as [e | b]; [reflexivity |].
    cbn [mbind exn_bind]. rewrite run_bind.
    destruct (comprehension test ps) as [e | kept_ps].
    + rewrite IH. reflexivity.
    + destruct IH as (kept & -> & Hkept). cbn.
      destruct b; eexists; (split; [reflexivity |]); [constructor |]; assumption.
Qed.

Lemma filter_step_refines (h : gmap Heap.loc Heap.object) (cur : Heap.loc)
    (items : list Heap.loc) (ps : list Patient) (kv : string * value) :
  h !! cur = Some (Heap.OList items) -> Forall2 (Heap.patient_at h) items ps ->
  match filter_step ps kv with
  | inl e => (Heap.filter_step cur kv h).1 = inl e
  | inr ps' =>
      exists cur' items',
        (Heap.filter_step cur kv h).1 = inr cur' /\
        (Heap.filter_step cur kv h).2 !! cur' = Some (Heap.OList items') /\
        Forall2 (Heap.patient_at (Heap.filter_step cur kv h).2) items' ps'
  end.
Proof.
  intros Hcur HF. unfold filter_step, Heap.filter_step.
  destruct (kwarg_test kv.1 kv.2) as [test |].
  - rewrite run_bind. unfold Heap.load_list. rewrite run_bind. unfold Heap.deref.
    rewrite Hcur. cbn [mret Heap.M_ret]. rewrite run_bind.
    pose proof (comprehension_refines test h items ps HF) as Hc.
    destruct (comprehension test ps) as [e | kept_ps].
    + rewrite Hc. reflexivity.
    + destruct Hc as (kept & -> & Hkept).
      destruct (alloc_fresh (Heap.OList kept) h) as (Hf & Hr & Hh & Hsub).
      exists (fresh (dom h)), kept. split; [exact Hr |]. rewrite Hh. split.
      * apply lookup_insert_eq.
      * rewrite <- Hh. eapply patients_at_weaken; eassumption.
  - exists cur, items. cbn. auto.
Qed.

Lemma filter_loop_refines (kwargs : list (string * value)) (h : gmap Heap.loc Heap.object)
    (cur : Heap.loc) (items : list Heap.loc) (ps : list Patient) :
  h !! cur = Some (Heap.OList items) -> Forall2 (Heap.patient_at h) items ps ->
  match filter_loop kwargs ps with
  | inl e => (Heap.filter_loop kwargs cur h).1 = inl e
  | inr ps' =>
      exists l items',
        (Heap.filter_loop kwargs cur h).1 = inr l /\
        (Heap.filter_loop kwargs cur h).2 !! l = Some (Heap.OList items') /\
        Forall2 (Heap.patient_at (Heap.filter_loop kwargs cur h).2) items' ps'
  end.
Proof.
  revert h cur items ps. induction kwargs as [| kv rest IH]; intros h cur items ps Hcur HF.
  - exists cur, items. cbn. auto.
  - cbn [filter_loop Heap.filter_loop]. rewrite run_bind.
    pose proof (filter_step_refines h cur items ps kv Hcur HF) as Hs.
    destruct (filter_step ps kv) as [e | ps1]; cbn [mbind exn_bind].
    + destruct (Heap.filter_step cur kv h) as [[x | cur1] h1]; cbn in Hs |- *; congruence.
    + destruct Hs as (cur1 & items1 & Hr & Hl & HF1).
      destruct (Heap.filter_step cur kv h) as [[x | c] h1]; cbn [fst snd] in Hr, Hl, HF1;
        [discriminate |].
      injection Hr as ->. apply (IH h1 cur1 items1 ps1 Hl HF1).
Qed.

Lemma dataset_values_at (h : gmap Heap.loc Heap.object) (entries : dict Heap.loc)
    (ps : dict Patient) :
  Forall2 (fun kl kp => kl.1 = kp.1 /\ Heap.patient_at h kl.2 kp.2) entries ps ->
  Forall2 (Heap.patient_at h) (dict_values entries) (dict_values ps) /\
  dict_len entries = dict_len ps.
Proof.
  unfold dict_values, dict_len. intros HF.
  induction HF as [| kl kp entries ps [_ Hp] HF [IH1 IH2]]; cbn [map length].
  - split; [constructor | reflexivity].
  - split; [constructor; assumption | lia].
Qed.

(** On a store that holds the dataset [ds] at [self], [filter_patients] by
    reference raises what [filter_patients] by value raises, and otherwise
    returns a list of references to the patients the latter returns. *)
Lemma filter_patients_refines (h : gmap Heap.loc Heap.object) (self : Heap.loc)
    (ds : PapilaDataset) (kwargs : list (string * value)) :
  Heap.dataset_at h self ds ->
  match filter_patients ds kwargs with
  | inl e => (Heap.filter_patients self kwargs h).1 = inl e
  | inr ps =>
      exists l items,
        (Heap.filter_patients self kwargs h).1 = inr l /\
        (Heap.filter_patients self kwargs h).2 !! l = Some (Heap.OList items) /\
        Forall2 (Heap.patient_at (Heap.filter_patients self kwargs h).2) items ps
  end.
Proof.
  intros (entries & Hload & HF). unfold filter_patients, Heap.filter_patients.
  rewrite run_bind. pose proof (reads_only_load_patients self h) as Hh.
  destruct (Heap.load_patients self h) as [[x | entries'] h1]; cbn in Hload, Hh;
    [discriminate |].
  injection Hload as ->. subst h1. rewrite run_bind.
  destruct (dataset_values_at h entries (patients ds) HF) as [Hvals _].
  destruct (alloc_fresh (Heap.OList (dict_values entries)) h) as (Hf & Hr & Hh & Hsub).
  destruct (Heap.alloc (Heap.OList (dict_values entries)) h) as [r h1];
    cbn [fst snd] in Hr, Hh, Hsub. subst r.
  apply (filter_loop_refines kwargs h1 (fresh (dom h)) (dict_values entries)).
  - rewrite Hh. apply lookup_insert_eq.
  - eapply patients_at_weaken; eassumption.
Qed.

Lemma count_if_refines (test : Patient -> bool) (h : gmap Heap.loc Heap.object)
    (items : list Heap.loc) (ps : list Patient) :
  Forall2 (Heap.patient_at h) items ps ->
  Heap.count_if test items h = (inr (count_if test ps), h).
Proof.
  intros HF. induction HF as [| x p items ps Hx HF IH]; cbn [Heap.count_if].
  - reflexivity.
  - rewrite run_bind, (patient_at_weaken h h x p (reflexivity h) Hx), run_bind, IH.
    rewrite count_if_cons. reflexivity.
Qed.

Lemma statistics_loop_refines (h0 : gmap Heap.loc Heap.object) (stats : Heap.loc)
    (items : list Heap.loc) (ps : list Patient) :
  Forall2 (Heap.patient_at h0) items ps -> h0 !! stats = None ->
  forall (total_age : Z) (s : Statistics) (h : gmap Heap.loc Heap.object),
    h0 ⊆ h -> h !! stats = Some (Heap.OStatistics s) ->
    (Heap.statistics_loop stats items total_age h).1 =
      inr (fold_left statistics_step ps (total_age, s)).1 /\
    (Heap.statistics_loop stats items total_age h).2 !! stats =
      Some (Heap.OStatistics (fold_left statistics_step ps (total_age, s)).2).
Proof.
  intros HF Hnew. induction HF as [| x p items ps Hx HF IH]; intros total_age s h Hsub Hs.
  - cbn. auto.
  - cbn [Heap.statistics_loop fold_left].
    rewrite run_bind, (patient_at_weaken h0 h x p Hsub Hx), run_bind.
    unfold Heap.load_statistics. rewrite run_bind. unfold Heap.deref. rewrite Hs.
    cbn [mret Heap.M_ret]. rewrite run_bind. cbn [Heap.store].
    destruct (statistics_step (total_age, s) p) as [total_age' s'] eqn:E. cbn [fst snd].
    apply IH.
    + apply insert_subseteq_r; assumption.
    + apply lookup_insert_eq.
Qed.

(** On a store that holds the dataset [ds] at [self], [get_statistics] by
    reference returns a reference to the statistics [get_statistics] by value
    computes. *)
Lemma get_statistics_refines (h : gmap Heap.loc Heap.object) (self : Heap.loc)
    (ds : PapilaDataset) :
  Heap.dataset_at h self ds ->
  exists l,
    (Heap.get_statistics self h).1 = inr l /\
    (Heap.get_statistics self h).2 !! l = Some (Heap.OStatistics (get_statistics ds)).
Proof.
  intros (entries & Hload & HF). unfold Heap.get_statistics.
  rewrite run_bind. pose proof (reads_only_load_patients self h) as Hh.
  destruct (Heap.load_patients self h) as [[x | entries'] h1]; cbn in Hload, Hh;
    [discriminate |].
  injection Hload as ->. subst h1.
  destruct (dataset_values_at h entries (patients ds) HF) as [Hvals Hlen].
  rewrite run_bind, (count_if_refines _ h _ _ Hvals).
  rewrite run_bind, (count_if_refines _ h _ _ Hvals).
  rewrite run_bind.
  match goal with |- context [Heap.alloc ?o h] =>
    destruct (alloc_fresh o h) as (Hnew & Hr & Hh & Hsub);
    destruct (Heap.alloc o h) as [r h1] end.
  cbn [fst snd] in Hr, Hh, Hsub. subst r. set (stats := fresh (dom h)) in *.
  rewrite run_bind.
  assert (Hs1 : h1 !! stats = Some (Heap.OStatistics (initial_statistics (patients ds)))).
  { rewrite Hh, lookup_insert_eq. unfold initial_statistics. rewrite Hlen. reflexivity. }
  destruct (statistics_loop_refines h stats _ _ Hvals Hnew 0 _ h1 Hsub Hs1) as [Hres Hst].
  unfold get_statistics.
  destruct (fold_left statistics_step (dict_values (patients ds))
              (0, initial_statistics (patients ds))) as [total_age s] eqn:Efold.
  destruct (Heap.statistics_loop stats (dict_values entries) 0 h1) as [[x | t] h2];
    cbn [fst snd] in Hres, Hst; [discriminate |].
  injection Hres as ->. rewrite run_bind. exists stats.
  destruct HF as [| kl kp entries ps Hk HF].
  - cbn. auto.
  - rewrite run_bind. unfold Heap.load_statistics. rewrite run_bind. unfold Heap.deref.
    rewrite Hst. cbn [mret Heap.M_ret]. cbn.
    split; [reflexivity |]. rewrite lookup_insert_eq. unfold dict_len in *.
    cbn [length] in Hlen |- *. rewrite Hlen. reflexivity.
Qed.

(** ** The demonstration at the end of the module

    One patient aged 65, MALE, right eye GLAUCOMA with mean defect -8.5, left
    eye SUSPECT with mean defect -2.5. *)
Example demo_run :
  get_patient_diagnosis demo_patient = "Glaucoma" /\
  option_bind _ _ get_glaucoma_severity (right_eye demo_patient) = Some "Glaucoma Moderado" /\
  total_patients (get_statistics demo_dataset) = 1 /\
  diagnosis_distribution (get_statistics demo_dataset) =
    {| healthy := 0; glaucoma := 0; suspect := 0; mixed := 1 |} /\
  gender_distribution (get_statistics demo_dataset) = {| male := 1; female := 0 |} /\
  age_min (age_stats (get_statistics demo_dataset)) = Int 65 /\
  age_max (age_stats (get_statistics demo_dataset)) = Int 65 /\
  (age_avg (age_stats (get_statistics demo_dataset)) == 65)%Q.
Proof. repeat split; vm_compute; reflexivity. Qed.

(** * Further properties of the module *)

(** ** EyeData *)

(** X1. [get_glaucoma_severity] returns [None] exactly when the mean defect is
    unset or the diagnosis is not GLAUCOMA; a GLAUCOMA eye with a mean defect
    always gets a label, whatever the float. *)
Theorem severity_absent_iff (self : EyeData) :
  get_glaucoma_severity self = None <->
  mean_defect self = None \/ diagnosis self <> GLAUCOMA.
Proof.
  unfold get_glaucoma_severity. destruct (mean_defect self) as [md |].
  - case_bool_decide as Hd; cbn [negb].
    + split; [| intros [H | H]; [discriminate | contradiction]].
      repeat match goal with |- context [if ?b then _ else _] => destruct b end;
        discriminate.
    + split; [intros _; right; exact Hd | reflexivity].
  - split; [intros _; left |]; reflexivity.
Qed.

Lemma severity_finite_cases (self : EyeData) (m : spec_float) :
  diagnosis self = GLAUCOMA -> mean_defect self = Some m ->
  is_binary64 m -> is_finite m = true ->
  (get_glaucoma_severity self = Some "Glaucoma Leve" /\ (-6 <= F2Q m < -3)%Q) \/
  (get_glaucoma_severity self = Some "Glaucoma Moderado" /\ (-12 <= F2Q m < -6)%Q) \/
  (get_glaucoma_severity self = Some "Glaucoma Severo" /\ (F2Q m < -12)%Q) \/
  (get_glaucoma_severity self = Some "No clasificable" /\ (-3 <= F2Q m)%Q).
Proof.
  intros Hd Hm Hv Fm. rewrite (severity_unfold self m Hd Hm).
  destruct (band_tests_finite m Hv Fm) as (A & B & C & D & E).
  generalize dependent (F2Q m). intros v A B C D E.
  destruct (float_le float_m6 m), (float_lt m float_m3), (float_le float_m12 m),
    (float_lt m float_m6), (float_lt m float_m12); cbn [andb];
    repeat match goal with
    | H : true = true <-> _ |- _ => apply proj1 in H; specialize (H eq_refl)
    | H : false = true <-> ?P |- _ =>
        assert (~ P) by (intros HP; apply H in HP; discriminate); clear H
    end;
    first [ left; split; [reflexivity | lra]
          | right; left; split; [reflexivity | lra]
          | right; right; left; split; [reflexivity | lra]
          | right; right; right; split; [reflexivity | lra]
          | exfalso; lra ].
Qed.

(** X2. Among GLAUCOMA eyes with finite mean defects, a lower mean defect
    never gets a milder label: the rank of the label (unclassifiable 0, mild 1,
    moderate 2, severe 3) does not increase with the value. *)
Theorem severity_monotone (e1 e2 : EyeData) (m1 m2 : spec_float) :
  diagnosis e1 = GLAUCOMA -> mean_defect e1 = Some m1 ->
  diagnosis e2 = GLAUCOMA -> mean_defect e2 = Some m2 ->
  is_binary64 m1 -> is_finite m1 = true ->
  is_binary64 m2 -> is_finite m2 = true ->
  (F2Q m1 <= F2Q m2)%Q ->
  severity_rank (get_glaucoma_severity e2) <= severity_rank (get_glaucoma_severity e1).
Proof.
  intros Hd1 Hm1 Hd2 Hm2 Hv1 Hf1 Hv2 Hf2 Hle.
  destruct (severity_finite_cases e1 m1 Hd1 Hm1 Hv1 Hf1)
    as [[-> H1] | [[-> H1] | [[-> H1] | [-> H1]]]];
  destruct (severity_finite_cases e2 m2 Hd2 Hm2 Hv2 Hf2)
    as [[-> H2] | [[-> H2] | [[-> H2] | [-> H2]]]];
  first [ vm_compute; discriminate | exfalso; lra ].
Qed.

Lemma severity_monotone_witness :
  severity_rank (get_glaucoma_severity (eye_of LEFT GLAUCOMA (Some float_m6))) <=
  severity_rank (get_glaucoma_severity (eye_of RIGHT GLAUCOMA (Some float_m8_5))).
Proof.
  apply (severity_monotone (eye_of RIGHT GLAUCOMA (Some float_m8_5))
           (eye_of LEFT GLAUCOMA (Some float_m6)) float_m8_5 float_m6);
    try reflexivity.
  vm_compute. discriminate.
Defined.

Lemma add_fundus_image_fields (path_exists : string -> bool) (self : EyeData)
    (path : string) :
  let self' := (add_fundus_image path_exists self path).1 in
  self' = set_fundus_image self (if path_exists path then Some path else fundus_image self).
Proof.
  unfold add_fundus_image. destruct (path_exists path); cbn [fst]; [reflexivity |].
  destruct self; reflexivity.
Qed.

Lemma last_or_snoc {A} (d : option A) (l : list A) (x : A) :
  last_or d (l ++ [x]) = Some x.
Proof. unfold last_or. rewrite last_snoc. reflexivity. Qed.

(** X3. After any series of image attachments, failed ones included, the
    [fundus_image] of the eye is the last path of the series that exists, or
    the image it had when none exists; its other attributes, and so its
    severity, are those it started with. *)
Theorem attach_all_last_existing (path_exists : string -> bool) (self : EyeData)
    (paths : list string) :
  fundus_image (attach_all path_exists self paths) =
    last_or (fundus_image self) (List.filter path_exists paths) /\
  same_clinical self (attach_all path_exists self paths) /\
  get_glaucoma_severity (attach_all path_exists self paths) = get_glaucoma_severity self.
Proof.
  assert (H : attach_all path_exists self paths =
    set_fundus_image self (last_or (fundus_image self) (List.filter path_exists paths))).
  { unfold attach_all. induction paths as [| p paths IH] using rev_ind.
    - destruct self; reflexivity.
    - rewrite fold_left_app. cbn [fold_left]. rewrite add_fundus_image_fields, IH.
      rewrite List.filter_app. cbn [List.filter].
      destruct (path_exists p); [rewrite last_or_snoc | rewrite app_nil_r]; reflexivity. }
  rewrite H. split; [reflexivity |]. split; [| reflexivity].
  unfold same_clinical. repeat split.
Qed.

(** ** Patient *)

Lemma set_eye_data_result (p : Patient) (e : EyeData) :
  set_eye_data p e =
  (match eye_type e with
   | RIGHT => set_right_eye p (Some e)
   | LEFT => set_left_eye p (Some e)
   end, inr tt).
Proof. unfold set_eye_data. destruct (eye_type e); reflexivity. Qed.

Lemma set_eye_data_keeps_slots (p : Patient) (e : EyeData) :
  eye_slots_ok p -> eye_slots_ok (set_eye_data p e).1.
Proof.
  rewrite set_eye_data_result. unfold eye_slots_ok. intros [Hr Hl].
  destruct (eye_type e) eqn:Et; cbn; split; intros e' He'; auto; congruence.
Qed.


(** X5. A patient built without eyes and then given eyes through
    [set_eye_data] only, any number of times and in any order, has each
    recorded eye in the slot of its own side. *)
Theorem set_eyes_slots (pid : string) (a : Z) (g : Gender) (eyes : list EyeData) :
  eye_slots_ok (set_eyes (Patient_init pid a g None None) eyes).
Proof.
  unfold set_eyes.
  assert (H : forall p, eye_slots_ok p ->
    eye_slots_ok (fold_left (fun p e => (set_eye_data p e).1) eyes p)).
  { induction eyes as [| e eyes IH]; intros p Hp; cbn [fold_left]; [exact Hp |].
    apply IH, set_eye_data_keeps_slots, Hp. }
  apply H. split; intros e; discriminate.
Qed.

Lemma side_is_cases (e : EyeData) :
  (eye_type e = RIGHT /\ side_is RIGHT e = true /\ side_is LEFT e = false) \/
  (eye_type e = LEFT /\ side_is RIGHT e = false /\ side_is LEFT e = true).
Proof.
  unfold side_is. destruct (eye_type e); [left | right];
    repeat split; repeat case_bool_decide; congruence.
Qed.

(** X6. After a series of [set_eye_data] calls each slot holds the last eye of
    its side in the series, or what it held before when the series has no eye
    of that side: a call overwrites its own slot and leaves the other one
    alone.  The identifier, age and gender are never touched. *)
Theorem set_eyes_last_per_side (p : Patient) (eyes : list EyeData) :
  right_eye (set_eyes p eyes) = last_or (right_eye p) (List.filter (side_is RIGHT) eyes) /\
  left_eye (set_eyes p eyes) = last_or (left_eye p) (List.filter (side_is LEFT) eyes) /\
  patient_id (set_eyes p eyes) = patient_id p /\
  age (set_eyes p eyes) = age p /\
  gender (set_eyes p eyes) = gender p.
Proof.
  unfold set_eyes. induction eyes as [| e eyes IH] using rev_ind.
  - cbn. repeat split; reflexivity.
  - destruct IH as (Hr & Hl & Hi & Ha & Hg).
    rewrite fold_left_app. cbn [fold_left]. rewrite set_eye_data_result.
    rewrite !List.filter_app. cbn [List.filter fst].
    destruct (side_is_cases e) as [(-> & -> & ->) | (-> & -> & ->)];
      cbn [right_eye left_eye patient_id age gender set_right_eye set_left_eye];
      rewrite ?last_or_snoc, ?app_nil_r; auto.
Qed.

Lemma diagnosis_with_eye (p : Patient) :
  (right_eye p <> None \/ left_eye p <> None -> get_patient_diagnosis p <> "Sin datos") /\
  (eye_has (right_eye p) GLAUCOMA || eye_has (left_eye p) GLAUCOMA = true ->
     get_patient_diagnosis p = "Glaucoma").
Proof.
  unfold get_patient_diagnosis. split.
  - intros H. destruct (right_eye p), (left_eye p); cbn [truthy negb andb];
      try (destruct H; congruence);
      repeat match goal with |- context [if ?b then _ else _] => destruct b end;
      discriminate.
  - intros H. rewrite H.
    destruct (right_eye p), (left_eye p); cbn [truthy negb andb]; try reflexivity.
    cbn in H. discriminate.
Qed.

(** X7. Once [set_eye_data] has been called the patient-level diagnosis is no
    longer "Sin datos", and recording a GLAUCOMA eye makes it "Glaucoma"
    whatever the other slot holds. *)
Theorem diagnosis_after_set_eye_data (p : Patient) (e : EyeData) :
  get_patient_diagnosis (set_eye_data p e).1 <> "Sin datos" /\
  (diagnosis e = GLAUCOMA -> get_patient_diagnosis (set_eye_data p e).1 = "Glaucoma").
Proof.
  rewrite set_eye_data_result. cbn [fst].
  destruct (diagnosis_with_eye
    (match eye_type e with
     | RIGHT => set_right_eye p (Some e)
     | LEFT => set_left_eye p (Some e)
     end)) as [Hn Hg].
  split.
  - apply Hn. destruct (eye_type e); cbn; [left | right]; discriminate.
  - intros Hd. apply Hg. destruct (eye_type e); cbn [set_right_eye set_left_eye right_eye left_eye eye_has];
      rewrite (bool_decide_eq_true_2 _ Hd); [reflexivity | apply orb_true_r].
Qed.

Lemma diagnosis_after_set_eye_data_witness :
  get_patient_diagnosis
    (set_eye_data (Patient_init "P001" 65 MALE None (Some (eye_of LEFT HEALTHY None)))
       (eye_of RIGHT GLAUCOMA None)).1 = "Glaucoma".
Proof.
  apply (diagnosis_after_set_eye_data
           (Patient_init "P001" 65 MALE None (Some (eye_of LEFT HEALTHY None)))
           (eye_of RIGHT GLAUCOMA None)).
  reflexivity.
Defined.

(** ** PapilaDataset: adding, looking up and removing patients *)

Lemma dict_get_set_eq {V} (k : string) (v : V) (d : dict V) :
  dict_get k (dict_set k v d) = Some v.
Proof.
  induction d as [| [k' v'] d IH]; cbn [dict_set dict_get].
  - rewrite String.eqb_refl. reflexivity.
  - destruct (String.eqb_spec k k') as [-> | Hne]; cbn [dict_get].
    + rewrite String.eqb_refl. reflexivity.
    + rewrite (proj2 (String.eqb_neq k k') Hne). exact IH.
Qed.

Lemma dict_get_set_ne {V} (k k0 : string) (v : V) (d : dict V) :
  k0 <> k -> dict_get k0 (dict_set k v d) = dict_get k0 d.
Proof.
  intros Hne. induction d as [| [k' v'] d IH]; cbn [dict_set dict_get].
  - rewrite (proj2 (String.eqb_neq k0 k) Hne). reflexivity.
  - destruct (String.eqb_spec k k') as [-> | Hkk']; cbn [dict_get].
    + rewrite (proj2 (String.eqb_neq k0 k') Hne). reflexivity.
    + rewrite IH. reflexivity.
Qed.

Lemma dict_get_None {V} (k : string) (d : dict V) :
  dict_get k d = None <-> ~ In k (dict_keys d).
Proof.
  induction d as [| [k' v'] d IH]; cbn [dict_get dict_keys map fst In].
  - tauto.
  - destruct (String.eqb_spec k k') as [-> | Hne].
    + split; [discriminate | intros H; exfalso; apply H; left; reflexivity].
    + rewrite IH. unfold dict_keys. split; [intros H [E | Hin]; congruence | tauto].
Qed.

Lemma dict_keys_set {V} (k : string) (v : V) (d : dict V) :
  dict_keys (dict_set k v d) =
  match dict_get k d with
  | Some _ => dict_keys d
  | None => (dict_keys d ++ [k])%list
  end.
Proof.
  induction d as [| [k' v'] d IH]; cbn [dict_set dict_get dict_keys map fst app].
  - reflexivity.
  - destruct (String.eqb_spec k k') as [-> | Hne]; cbn [dict_keys map fst].
    + reflexivity.
    + fold (dict_keys (dict_set k v d)). rewrite IH.
      destruct (dict_get k d); reflexivity.
Qed.

Lemma dict_del_absent {V} (k : string) (d : dict V) :
  dict_get k d = None -> dict_del k d = d.
Proof.
  induction d as [| [k' v'] d IH]; cbn [dict_get dict_del]; [reflexivity |].
  destruct (String.eqb k k'); [discriminate |]. intros H. rewrite (IH H). reflexivity.
Qed.

Lemma dict_keys_del_subset {V} (k k0 : string) (d : dict V) :
  In k0 (dict_keys (dict_del k d)) -> In k0 (dict_keys d).
Proof.
  induction d as [| [k' v'] d IH]; cbn [dict_del dict_keys map fst In]; [tauto |].
  destruct (String.eqb k k'); cbn [map fst In]; [tauto |].
  intros [E | Hin]; [left; exact E | right; apply IH, Hin].
Qed.

Lemma dict_keys_del_NoDup {V} (k : string) (d : dict V) :
  NoDup (dict_keys d) -> NoDup (dict_keys (dict_del k d)).
Proof.
  induction d as [| [k' v'] d IH]; cbn [dict_del dict_keys map fst]; [auto |].
  intros Hnd. apply NoDup_cons in Hnd as [Hnotin Hnd].
  destruct (String.eqb k k'); [exact Hnd |].
  cbn [map fst]. apply NoDup_cons. split; [| apply IH, Hnd].
  intros Hin%list_elem_of_In. apply Hnotin, list_elem_of_In.
  eapply dict_keys_del_subset, Hin.
Qed.

Lemma dict_get_del_eq {V} (k : string) (d : dict V) :
  NoDup (dict_keys d) -> dict_get k (dict_del k d) = None.
Proof.
  induction d as [| [k' v'] d IH]; cbn [dict_del dict_keys map fst]; [reflexivity |].
  intros Hnd. apply NoDup_cons in Hnd as [Hnotin Hnd].
  destruct (String.eqb_spec k k') as [-> | Hne].
  - apply dict_get_None. intros Hin%list_elem_of_In. exact (Hnotin Hin).
  - cbn [dict_get]. rewrite (proj2 (String.eqb_neq k k') Hne). apply IH, Hnd.
Qed.

Lemma dict_get_del_ne {V} (k k0 : string) (d : dict V) :
  k0 <> k -> dict_get k0 (dict_del k d) = dict_get k0 d.
Proof.
  intros Hne. induction d as [| [k' v'] d IH]; cbn [dict_del dict_get]; [reflexivity |].
  destruct (String.eqb_spec k k') as [-> | Hkk'].
  - rewrite (proj2 (String.eqb_neq k0 k') Hne). reflexivity.
  - cbn [dict_get]. rewrite IH. reflexivity.
Qed.

Lemma dict_del_set_fresh {V} (k : string) (v : V) (d : dict V) :
  dict_get k d = None -> dict_del k (dict_set k v d) = d.
Proof.
  induction d as [| [k' v'] d IH]; cbn [dict_get dict_set dict_del].
  - rewrite String.eqb_refl. reflexivity.
  - destruct (String.eqb k k') eqn:E; [discriminate |]. intros H.
    cbn [dict_del]. rewrite E, (IH H). reflexivity.
Qed.

Lemma dict_set_Forall {V} (P : string * V -> Prop) (k : string) (v : V) (d : dict V) :
  P (k, v) -> Forall P d -> Forall P (dict_set k v d).
Proof.
  intros Hkv Hd. induction Hd as [| [k' v'] d Hx Hd IH]; cbn [dict_set].
  - constructor; [exact Hkv | constructor].
  - destruct (String.eqb_spec k k') as [<- | Hne]; constructor; assumption.
Qed.

Lemma dict_del_Forall {V} (P : string * V -> Prop) (k : string) (d : dict V) :
  Forall P d -> Forall P (dict_del k d).
Proof.
  intros Hd. induction Hd as [| [k' v'] d Hx Hd IH]; cbn [dict_del]; [constructor |].
  destruct (String.eqb k k'); [exact Hd | constructor; assumption].
Qed.

(** X8. Looking up a patient that was just added returns that patient,
    whether it replaced an earlier record of the same identifier or not, and
    the lookups of all other identifiers are what they were. *)
Theorem get_after_add (self : PapilaDataset) (patient : Patient) (pid : string) :
  get_patient (add_patient self patient) (patient_id patient) = Some patient /\
  (pid <> patient_id patient ->
   get_patient (add_patient self patient) pid = get_patient self pid).
Proof.
  unfold get_patient, add_patient. cbn [patients]. split.
  - apply dict_get_set_eq.
  - intros Hne. apply dict_get_set_ne, Hne.
Qed.

Lemma get_after_add_witness :
  get_patient (add_patient demo_dataset (Patient_init "P002" 40 FEMALE None None)) "P001" =
  get_patient demo_dataset "P001".
Proof.
  apply (get_after_add demo_dataset (Patient_init "P002" 40 FEMALE None None) "P001").
  discriminate.
Defined.

(** X9. [add_patient] and [remove_patient] keep the dictionary of a dataset
    well formed (one entry per identifier, each patient filed under its own
    identifier), the new dataset is well formed, and in a well-formed dataset
    a lookup by identifier returns a patient with that identifier. *)
Theorem dataset_ok_preserved (self : PapilaDataset) (patient : Patient) (pid : string) :
  dataset_ok PapilaDataset_init /\
  (dataset_ok self -> dataset_ok (add_patient self patient)) /\
  (dataset_ok self -> dataset_ok (remove_patient self pid).1) /\
  (dataset_ok self -> forall p, get_patient self pid = Some p -> patient_id p = pid).
Proof.
  unfold dataset_ok. split; [split; constructor |]. split; [| split].
  - intros [Hnd Hid]. unfold add_patient. cbn [patients]. split.
    + rewrite dict_keys_set.
      destruct (dict_get (patient_id patient) (patients self)) eqn:E; [exact Hnd |].
      apply NoDup_app. split; [exact Hnd | split; [| apply NoDup_singleton]].
      intros k Hin Hk. apply list_elem_of_singleton in Hk as ->.
      apply list_elem_of_In in Hin. apply dict_get_None in E. contradiction.
    + apply dict_set_Forall; [reflexivity | exact Hid].
  - intros [Hnd Hid]. unfold remove_patient.
    destruct (dict_get pid (patients self)); cbn [fst patients]; [| split; assumption].
    split; [apply dict_keys_del_NoDup, Hnd | apply dict_del_Forall, Hid].
  - intros [_ Hid] p. unfold get_patient.
    induction Hid as [| [k v] d Hkv Hid IH]; cbn [dict_get]; [discriminate |].
    destruct (String.eqb_spec pid k) as [-> | Hne]; [| exact IH].
    intros [= <-]. symmetry. exact Hkv.
Qed.

Lemma dataset_ok_preserved_witness :
  dataset_ok (add_patient PapilaDataset_init demo_patient).
Proof.
  exact (proj1 (proj2 (dataset_ok_preserved PapilaDataset_init demo_patient "P001"))
           (proj1 (dataset_ok_preserved PapilaDataset_init demo_patient "P001"))).
Defined.

Lemma dict_keys_length {V} (d : dict V) : length (dict_keys d) = length d.
Proof. unfold dict_keys. apply length_map. Qed.

(** X10. Adding a patient whose identifier is already registered replaces the
    record where it stands: the identifiers, their order and the patient count
    of the statistics stay the same.  Adding one with a new identifier puts it
    last and raises the count by one. *)
Theorem add_patient_count (self : PapilaDataset) (patient : Patient) :
  dict_keys (patients (add_patient self patient)) =
    match get_patient self (patient_id patient) with
    | Some _ => dict_keys (patients self)
    | None => (dict_keys (patients self) ++ [patient_id patient])%list
    end /\
  total_patients (get_statistics (add_patient self patient)) =
    total_patients (get_statistics self) +
    match get_patient self (patient_id patient) with
    | Some _ => 0
    | None => 1
    end.
Proof.
  assert (Hk := dict_keys_set (patient_id patient) patient (patients self)).
  split; [exact Hk |].
  destruct (get_statistics_fields (add_patient self patient)) as (-> & _).
  destruct (get_statistics_fields self) as (-> & _).
  unfold dict_len. rewrite <- !dict_keys_length. unfold add_patient at 1. cbn [patients].
  rewrite Hk. unfold get_patient.
  destruct (dict_get (patient_id patient) (patients self)); [lia |].
  rewrite length_app. cbn [length]. lia.
Qed.

Lemma dict_del_length {V} (k : string) (d : dict V) :
  Z.of_nat (length (dict_del k d)) =
  Z.of_nat (length d) - match dict_get k d with Some _ => 1 | None => 0 end.
Proof.
  induction d as [| [k' v'] d IH]; cbn [dict_del dict_get length]; [lia |].
  destruct (String.eqb k k'); cbn [length]; lia.
Qed.

(** X11. [remove_patient] returns [True] exactly when the identifier is
    registered.  When it returns [False] the dataset is untouched; when it
    returns [True] the patient count drops by one.  Either way the other
    identifiers look up as before and, in a well-formed dataset, the removed
    identifier no longer looks up. *)
Theorem remove_patient_spec (self : PapilaDataset) (pid pid' : string) :
  let r := remove_patient self pid in
  (r.2 = true <-> get_patient self pid <> None) /\
  (r.2 = false -> r.1 = self) /\
  (r.2 = true ->
     total_patients (get_statistics r.1) = total_patients (get_statistics self) - 1) /\
  (pid' <> pid -> get_patient r.1 pid' = get_patient self pid') /\
  (dataset_ok self -> get_patient r.1 pid = None) /\
  base_dir r.1 = base_dir self.
Proof.
  intros r. subst r. unfold remove_patient, get_patient.
  pose proof (dict_del_length pid (patients self)) as Hlen.
  destruct (dict_get pid (patients self)) as [p |] eqn:E; cbn [fst snd patients base_dir].
  - split; [split; [discriminate | reflexivity] |]. split; [discriminate |]. split.
    + intros _.
      match goal with |- total_patients (get_statistics ?d) = _ =>
        destruct (get_statistics_fields d) as (-> & _) end.
      destruct (get_statistics_fields self) as (-> & _).
      unfold dict_len. cbn [patients]. lia.
    + split; [intros Hne; apply dict_get_del_ne, Hne |].
      split; [intros [Hnd _]; apply dict_get_del_eq, Hnd | reflexivity].
  - split; [split; [discriminate | intros H; contradiction] |].
    split; [reflexivity |]. split; [discriminate |].
    split; [reflexivity |]. split; [intros _; exact E | reflexivity].
Qed.

Lemma remove_patient_spec_witness :
  get_patient (remove_patient demo_dataset "P001").1 "P001" = None.
Proof.
  apply (remove_patient_spec demo_dataset "P001" "P001").
  split; [apply NoDup_singleton | repeat constructor].
Defined.

(** X12. Adding a patient under an identifier that is not registered and then
    removing that identifier gives back the dataset as it was, and the removal
    returns [True]. *)
Theorem remove_after_add (self : PapilaDataset) (patient : Patient) :
  get_patient self (patient_id patient) = None ->
  remove_patient (add_patient self patient) (patient_id patient) = (self, true).
Proof.
  unfold get_patient, remove_patient, add_patient. cbn [patients base_dir]. intros H.
  rewrite dict_get_set_eq, (dict_del_set_fresh _ _ _ H). destruct self; reflexivity.
Qed.

Lemma remove_after_add_witness :
  remove_patient (add_patient PapilaDataset_init demo_patient) (patient_id demo_patient) =
  (PapilaDataset_init, true).
Proof. exact (remove_after_add PapilaDataset_init demo_patient eq_refl). Defined.

(** X13. [set_base_directory] raises [NotADirectoryError] exactly when the
    path is not an existing directory and then leaves the dataset as it was;
    otherwise it assigns [base_dir] and nothing else.  The patients are never
    touched. *)
Theorem set_base_directory_spec (isdir : string -> bool) (self : PapilaDataset)
    (directory : string) :
  let r := set_base_directory_of isdir self directory in
  ((exists msg, r.2 = inl (NotADirectoryError msg)) <-> isdir directory = false) /\
  (r.2 = inr tt <-> isdir directory = true) /\
  (isdir directory = false -> r.1 = self) /\
  (isdir directory = true -> base_dir r.1 = Some directory) /\
  patients r.1 = patients self.
Proof.
  intros r. subst r. unfold set_base_directory_of, set_base_directory.
  destruct (isdir directory); cbn [fst snd patients base_dir].
  - split; [split; [intros [msg H]; discriminate | discriminate] |].
    split; [split; reflexivity |]. split; [discriminate |]. split; reflexivity.
  - split; [split; [reflexivity | intros _; eexists; reflexivity] |].
    split; [split; discriminate |]. split; [intros _; destruct self; reflexivity |].
    split; [discriminate | reflexivity].
Qed.

Lemma set_base_directory_spec_witness :
  (set_base_directory_of (fun _ => false) demo_dataset "/data").1 = demo_dataset.
Proof.
  apply (set_base_directory_spec (fun _ => false) demo_dataset "/data"). reflexivity.
Defined.

(** ** PapilaDataset.filter_patients, further *)

Lemma filter_loop_nil (kwargs : list (string * value)) :
  filter_loop kwargs [] = inr [].
Proof.
  induction kwargs as [| kv rest IH]; cbn [filter_loop]; [reflexivity |].
  unfold filter_step. destruct (kwarg_test kv.1 kv.2); cbn; exact IH.
Qed.

(** X14. On a dataset without patients [filter_patients] returns the empty
    list and never raises, whatever the keywords and their values: a
    comparison that would raise is never evaluated. *)
Theorem filter_empty_dataset (self : PapilaDataset) (kwargs : list (string * value)) :
  patients self = [] -> filter_patients self kwargs = inr [].
Proof. intros H. unfold filter_patients. rewrite H. apply filter_loop_nil. Qed.

Lemma filter_empty_dataset_witness :
  filter_patients PapilaDataset_init [("age_min", VStr "sixty"); ("age_max", VNone)] = inr [].
Proof.
  exact (filter_empty_dataset PapilaDataset_init
           [("age_min", VStr "sixty"); ("age_max", VNone)] eq_refl).
Defined.

Lemma filter_loop_app (kw1 kw2 : list (string * value)) (l : list Patient) :
  filter_loop (kw1 ++ kw2) l = filter_loop kw1 l ≫= filter_loop kw2.
Proof.
  revert l. induction kw1 as [| kv kw1 IH]; intros l; cbn [app filter_loop].
  - reflexivity.
  - destruct (filter_step l kv) as [e | l']; cbn; [reflexivity | apply IH].
Qed.

Lemma comprehension_raises {A} (test : A -> exn + bool) (e : exn) (x : A) (l : list A) :
  (forall y, test y = inl e) -> comprehension test (x :: l) = inl e.
Proof. intros H. cbn [comprehension]. rewrite H. reflexivity. Qed.

(** X15. An [age_min] or [age_max] keyword whose value is not a number makes
    [filter_patients] raise [TypeError] when at least one patient has passed
    the keywords before it, and has no effect when none has: the result is
    then the empty list, whatever keywords follow. *)
Theorem filter_ill_typed_bound (self : PapilaDataset)
    (before after : list (string * value)) (key : string) (v : value) :
  Forall age_bounds_are_int before ->
  key = "age_min" \/ key = "age_max" ->
  (forall z, v <> VInt z) ->
  filter_patients self (before ++ (key, v) :: after) =
    match List.filter (fun p => forallb (satisfiesb p) before)
            (dict_values (patients self)) with
    | [] => inr []
    | _ :: _ => inl TypeError
    end.
Proof.
  intros Hty Hkey Hv. unfold filter_patients.
  rewrite filter_loop_app, (filter_loop_spec before _ Hty). cbn [mbind exn_bind].
  destruct (List.filter _ (dict_values (patients self))) as [| p l].
  - apply filter_loop_nil.
  - cbn [filter_loop]. unfold filter_step. cbn [fst snd].
    assert (Ht : exists test, kwarg_test key v = Some test /\
                              forall y : Patient, test y = inl TypeError).
    { unfold kwarg_test. destruct Hkey as [-> | ->]; cbn; eexists; (split; [reflexivity |]);
        intros y; destruct v; try reflexivity; exfalso; eapply Hv; reflexivity. }
    destruct Ht as (test & -> & Ht). rewrite (comprehension_raises test TypeError p l Ht).
    reflexivity.
Qed.

Lemma filter_ill_typed_bound_witness :
  filter_patients demo_dataset ([("gender", VGender MALE)] ++ ("age_max", VNone) :: []) =
  inl TypeError.
Proof.
  refine (eq_trans (filter_ill_typed_bound demo_dataset [("gender", VGender MALE)] []
                      "age_max" VNone _ _ _) _).
  - repeat constructor. intros [H | H]; discriminate.
  - right. reflexivity.
  - discriminate.
  - vm_compute. reflexivity.
Defined.

Lemma forallb_Permutation {A} (f : A -> bool) (l l' : list A) :
  Permutation l l' -> forallb f l = forallb f l'.
Proof.
  induction 1 as [| x l l' _ IH | x y l | l l' l'' _ IH1 _ IH2]; cbn [forallb].
  - reflexivity.
  - rewrite IH. reflexivity.
  - destruct (f x), (f y); reflexivity.
  - congruence.
Qed.

(** X16. With integer age bounds the order of the keywords does not matter:
    two calls whose keyword lists are permutations of each other return the
    same list. *)
Theorem filter_order_irrelevant (self : PapilaDataset)
    (kwargs kwargs' : list (string * value)) :
  Forall age_bounds_are_int kwargs -> Permutation kwargs kwargs' ->
  filter_patients self kwargs = filter_patients self kwargs'.
Proof.
  intros Hty Hperm. unfold filter_patients.
  assert (Hty' : Forall age_bounds_are_int kwargs').
  { apply Forall_forall. intros kv Hin. rewrite Forall_forall in Hty. apply Hty.
    apply list_elem_of_In. apply list_elem_of_In in Hin.
    eapply Permutation_in; [symmetry; exact Hperm | exact Hin]. }
  rewrite (filter_loop_spec kwargs _ Hty), (filter_loop_spec kwargs' _ Hty').
  f_equal. apply List.filter_ext. intros p. apply forallb_Permutation, Hperm.
Qed.

Lemma filter_order_irrelevant_witness :
  filter_patients demo_dataset [("age_min", VInt 60); ("gender", VGender MALE)] =
  filter_patients demo_dataset [("gender", VGender MALE); ("age_min", VInt 60)].
Proof.
  apply filter_order_irrelevant.
  - repeat constructor; cbn [fst snd]; [intros _; exists 60; reflexivity |].
    intros [H | H]; discriminate.
  - apply perm_swap.
Defined.

Lemma comprehension_sublist {A} (test : A -> exn + bool) (l r : list A) :
  comprehension test l = inr r -> sublist r l.
Proof.
  revert r. induction l as [| x l IH]; intros r; cbn [comprehension].
  - intros [= <-]. constructor.
  - destruct (test x) as [e | b]; cbn [mbind exn_bind]; [discriminate |].
    destruct (comprehension test l) as [e | r']; cbn [mbind exn_bind]; [discriminate |].
    intros [= <-]. specialize (IH r' eq_refl).
    destruct b; [apply sublist_skip | apply sublist_cons]; exact IH.
Qed.

Lemma filter_loop_sublist (kwargs : list (string * value)) (l r : list Patient) :
  filter_loop kwargs l = inr r -> sublist r l.
Proof.
  revert l. induction kwargs as [| kv rest IH]; intros l; cbn [filter_loop].
  - intros [= <-]. reflexivity.
  - unfold filter_step. destruct (kwarg_test kv.1 kv.2) as [test |]; cbn [mbind exn_bind].
    + destruct (comprehension test l) as [e | l'] eqn:E; cbn [mbind exn_bind]; [discriminate |].
      intros H. etrans; [apply IH, H | eapply comprehension_sublist, E].
    + apply IH.
Qed.

(** X17. Whatever the keywords and their values, a list returned by
    [filter_patients] is made of patients of the dataset, each at most once
    per entry and in the dataset's order; and keywords added at the end of a
    call can only take patients out of its result. *)
Theorem filter_result_sublist (self : PapilaDataset)
    (kwargs more : list (string * value)) (r r' : list Patient) :
  (filter_patients self kwargs = inr r -> sublist r (dict_values (patients self))) /\
  (filter_patients self kwargs = inr r ->
   filter_patients self (kwargs ++ more) = inr r' -> sublist r' r).
Proof.
  unfold filter_patients. split.
  - apply filter_loop_sublist.
  - rewrite filter_loop_app. intros ->. cbn [mbind exn_bind]. apply filter_loop_sublist.
Qed.

Lemma filter_result_sublist_witness :
  sublist [demo_patient] (dict_values (patients demo_dataset)).
Proof.
  apply (filter_result_sublist demo_dataset [("zone", VNone)] [] [demo_patient] []).
  reflexivity.
Defined.

Lemma diagnosis_glaucoma_iff (p : Patient) :
  String.eqb (get_patient_diagnosis p) "Glaucoma" =
  eye_has (right_eye p) GLAUCOMA || eye_has (left_eye p) GLAUCOMA.
Proof.
  unfold get_patient_diagnosis.
  destruct (eye_has (right_eye p) GLAUCOMA || eye_has (left_eye p) GLAUCOMA) eqn:E.
  - destruct (right_eye p), (left_eye p); cbn [truthy negb andb]; try reflexivity.
    cbn in E. discriminate.
  - repeat match goal with |- context [if ?b then _ else _] => destruct b end; reflexivity.
Qed.

(** X18. Filtering on [diagnosis=GLAUCOMA] returns exactly the patients whose
    patient-level diagnosis is "Glaucoma". *)
Theorem filter_glaucoma_is_patient_diagnosis (self : PapilaDataset) :
  filter_patients self [("diagnosis", VDiagnosis GLAUCOMA)] =
  inr (List.filter (fun p => String.eqb (get_patient_diagnosis p) "Glaucoma")
         (dict_values (patients self))).
Proof.
  unfold filter_patients. cbn [filter_loop].
  rewrite filter_step_spec by (intros [H | H]; discriminate).
  cbn [mbind exn_bind]. f_equal. apply List.filter_ext. intros p.
  rewrite diagnosis_glaucoma_iff. reflexivity.
Qed.

Lemma count_if_filter_length {A} (test : A -> bool) (l : list A) :
  count_if test l = Z.of_nat (length (List.filter test l)).
Proof.
  induction l as [| x l IH]; [reflexivity |].
  rewrite count_if_cons, IH. cbn [List.filter]. destruct (test x); cbn [length]; lia.
Qed.

(** X19. The gender counts of [get_statistics] agree with [filter_patients]:
    the male count is the number of patients a [gender=MALE] filter returns,
    and likewise for FEMALE. *)
Theorem gender_counts_match_filter (self : PapilaDataset) (g : Gender) (r : list Patient) :
  filter_patients self [("gender", VGender g)] = inr r ->
  match g with
  | MALE => male (gender_distribution (get_statistics self))
  | FEMALE => female (gender_distribution (get_statistics self))
  end = Z.of_nat (length r).
Proof.
  unfold filter_patients. cbn [filter_loop].
  rewrite filter_step_spec by (intros [H | H]; discriminate).
  cbn [mbind exn_bind]. intros [= <-].
  destruct (get_statistics_fields self) as (_ & Hm & Hf & _).
  destruct g; [rewrite Hm | rewrite Hf]; rewrite count_if_filter_length;
    do 2 f_equal; apply List.filter_ext; intros p; reflexivity.
Qed.

Lemma gender_counts_match_filter_witness :
  male (gender_distribution (get_statistics demo_dataset)) = Z.of_nat (length [demo_patient]).
Proof. exact (gender_counts_match_filter demo_dataset MALE [demo_patient] eq_refl). Defined.

(** ** PapilaDataset.get_statistics, further *)

Lemma count_diagnosis_fields (dd : DiagnosisDistribution) (p : Patient) :
  healthy (count_diagnosis dd p) = healthy dd + (if both_eyes HEALTHY p then 1 else 0) /\
  glaucoma (count_diagnosis dd p) = glaucoma dd + (if both_eyes GLAUCOMA p then 1 else 0) /\
  suspect (count_diagnosis dd p) = suspect dd + (if both_eyes SUSPECT p then 1 else 0) /\
  mixed (count_diagnosis dd p) = mixed dd + (if eyes_differ p then 1 else 0).
Proof.
  unfold count_diagnosis, both_eyes, eyes_differ, eye_has.
  destruct (right_eye p) as [r |], (left_eye p) as [l |]; cbn [diagnosis_or_None];
    try destruct (diagnosis r); try destruct (diagnosis l);
    repeat case_bool_decide; try congruence; cbn; lia.
Qed.

Lemma fold_count_diagnosis_fields (l : list Patient) (dd : DiagnosisDistribution) :
  healthy (fold_left count_diagnosis l dd) = healthy dd + count_if (both_eyes HEALTHY) l /\
  glaucoma (fold_left count_diagnosis l dd) = glaucoma dd + count_if (both_eyes GLAUCOMA) l /\
  suspect (fold_left count_diagnosis l dd) = suspect dd + count_if (both_eyes SUSPECT) l /\
  mixed (fold_left count_diagnosis l dd) = mixed dd + count_if eyes_differ l.
Proof.
  revert dd. induction l as [| p l IH]; intros dd; cbn [fold_left].
  - unfold count_if. cbn. lia.
  - destruct (IH (count_diagnosis dd p)) as (-> & -> & -> & ->).
    destruct (count_diagnosis_fields dd p) as (-> & -> & -> & ->).
    rewrite !count_if_cons. lia.
Qed.

(** X20. In the statistics of any dataset the healthy, glaucoma and suspect
    buckets count the patients whose two eyes are both recorded with that
    diagnosis, and the mixed bucket counts the patients whose two sides
    differ, those with a single recorded eye included. *)
Theorem statistics_bucket_counts (self : PapilaDataset) :
  let dd := diagnosis_distribution (get_statistics self) in
  let vals := dict_values (patients self) in
  healthy dd = count_if (both_eyes HEALTHY) vals /\
  glaucoma dd = count_if (both_eyes GLAUCOMA) vals /\
  suspect dd = count_if (both_eyes SUSPECT) vals /\
  mixed dd = count_if eyes_differ vals.
Proof.
  intros dd vals. subst dd vals.
  destruct (get_statistics_fields self) as (_ & _ & _ & ->).
  destruct (fold_count_diagnosis_fields (dict_values (patients self))
    {| healthy := 0; glaucoma := 0; suspect := 0; mixed := 0 |}) as (-> & -> & -> & ->).
  cbn [healthy glaucoma suspect mixed]. repeat split; lia.
Qed.

Lemma statistics_loop_ages (l : list Patient) (total_age : Z) (stats : Statistics) :
  let r := fold_left statistics_step l (total_age, stats) in
  age_min (age_stats r.2) =
    fold_left (fun m p => py_min m (Int (age p))) l (age_min (age_stats stats)) /\
  age_max (age_stats r.2) =
    fold_left (fun m p => py_max m (Int (age p))) l (age_max (age_stats stats)).
Proof.
  revert total_age stats. induction l as [| p l IH]; intros total_age stats; cbn [fold_left].
  - cbn. auto.
  - unfold statistics_step at 2 4. apply IH.
Qed.

Lemma min_fold_int (l : list Patient) (z : Z) :
  exists lo, fold_left (fun m p => py_min m (Int (age p))) l (Int z) = Int lo /\
    lo <= z /\ Forall (fun p => lo <= age p) l /\ (lo = z \/ Exists (fun p => age p = lo) l).
Proof.
  revert z. induction l as [| p l IH]; intros z; cbn [fold_left].
  - exists z. repeat split; [lia | constructor | left; reflexivity].
  - unfold py_min at 2. cbn [num_lt].
    destruct (Z.ltb_spec (age p) z) as [Hlt | Hge].
    + destruct (IH (age p)) as (lo & -> & Hlo & Hall & Hex). exists lo.
      split; [reflexivity |]. split; [lia |]. split; [constructor; [lia | exact Hall] |].
      right. destruct Hex as [-> | Hex]; [left; reflexivity | right; exact Hex].
    + destruct (IH z) as (lo & -> & Hlo & Hall & Hex). exists lo.
      split; [reflexivity |]. split; [lia |]. split; [constructor; [lia | exact Hall] |].
      destruct Hex as [-> | Hex]; [left; reflexivity | right; right; exact Hex].
Qed.

Lemma max_fold_int (l : list Patient) (z : Z) :
  exists hi, fold_left (fun m p => py_max m (Int (age p))) l (Int z) = Int hi /\
    z <= hi /\ Forall (fun p => age p <= hi) l /\ (hi = z \/ Exists (fun p => age p = hi) l).
Proof.
  revert z. induction l as [| p l IH]; intros z; cbn [fold_left].
  - exists z. repeat split; [lia | constructor | left; reflexivity].
  - unfold py_max at 2. cbn [num_lt].
    destruct (Z.ltb_spec z (age p)) as [Hlt | Hge].
    + destruct (IH (age p)) as (hi & -> & Hhi & Hall & Hex). exists hi.
      split; [reflexivity |]. split; [lia |]. split; [constructor; [lia | exact Hall] |].
      right. destruct Hex as [-> | Hex]; [left; reflexivity | right; exact Hex].
    + destruct (IH z) as (hi & -> & Hhi & Hall & Hex). exists hi.
      split; [reflexivity |]. split; [lia |]. split; [constructor; [lia | exact Hall] |].
      destruct Hex as [-> | Hex]; [left; reflexivity | right; right; exact Hex].
Qed.

(** X21. On a dataset with at least one patient the age minimum and maximum
    of the statistics are integers, not the infinite sentinels: the minimum is
    the age of some patient and no patient is younger, the maximum is the age
    of some patient and no patient is older. *)
Theorem statistics_age_range (self : PapilaDataset) :
  patients self <> [] ->
  exists lo hi,
    age_min (age_stats (get_statistics self)) = Int lo /\
    age_max (age_stats (get_statistics self)) = Int hi /\
    Forall (fun p => lo <= age p <= hi) (dict_values (patients self)) /\
    Exists (fun p => age p = lo) (dict_values (patients self)) /\
    Exists (fun p => age p = hi) (dict_values (patients self)).
Proof.
  intros Hne. unfold get_statistics.
  destruct (finish_statistics_fields (patients self)
    (fold_left statistics_step (dict_values (patients self))
       (0, initial_statistics (patients self)))) as (_ & _ & _ & -> & ->).
  destruct (statistics_loop_ages (dict_values (patients self)) 0
    (initial_statistics (patients self))) as [-> ->].
  cbn [initial_statistics age_stats age_min age_max].
  destruct (patients self) as [| [k p] d]; [contradiction |].
  unfold dict_values. cbn [map snd fold_left].
  change (py_min Inf (Int (age p))) with (Int (age p)).
  change (py_max NegInf (Int (age p))) with (Int (age p)).
  destruct (min_fold_int (map snd d) (age p)) as (lo & -> & Hlo & Hmin & Hexlo).
  destruct (max_fold_int (map snd d) (age p)) as (hi & -> & Hhi & Hmax & Hexhi).
  exists lo, hi. split; [reflexivity |]. split; [reflexivity |]. split; [| split].
  - constructor; [lia |]. rewrite Forall_forall in Hmin, Hmax |- *.
    intros q Hq. specialize (Hmin q Hq). specialize (Hmax q Hq). cbn in *. lia.
  - destruct Hexlo as [-> | Hex]; [left; reflexivity | right; exact Hex].
  - destruct Hexhi as [-> | Hex]; [left; reflexivity | right; exact Hex].
Qed.

Lemma statistics_age_range_witness :
  exists lo hi,
    age_min (age_stats (get_statistics demo_dataset)) = Int lo /\
    age_max (age_stats (get_statistics demo_dataset)) = Int hi /\
    Forall (fun p => lo <= age p <= hi) (dict_values (patients demo_dataset)) /\
    Exists (fun p => age p = lo) (dict_values (patients demo_dataset)) /\
    Exists (fun p => age p = hi) (dict_values (patients demo_dataset)).
Proof. apply (statistics_age_range demo_dataset). discriminate. Defined.

(** ** The module by reference, further *)

Lemma heap_comprehension_sublist (test : Patient -> exn + bool) (items kept : list Heap.loc)
    (h : gmap Heap.loc Heap.object) :
  (Heap.comprehension test items h).1 = inr kept -> sublist kept items.
Proof.
  revert kept h. induction items as [| x rest IH]; intros kept h; cbn [Heap.comprehension].
  - intros [= <-]. constructor.
  - rewrite run_bind. destruct (Heap.load_patient x h) as [[e | p] h1]; [discriminate |].
    rewrite run_bind. unfold Heap.lift. destruct (test p) as [e | b]; [discriminate |].
    rewrite run_bind. pose proof (fun k => IH k h1) as IH1.
    destruct (Heap.comprehension test rest h1) as [[e | kept'] h2]; [discriminate |].
    cbn. intros [= <-]. specialize (IH1 kept' eq_refl).
    destruct b; [apply sublist_skip | apply sublist_cons]; exact IH1.
Qed.

Lemma heap_filter_step_list (h : gmap Heap.loc Heap.object) (cur cur' : Heap.loc)
    (items : list Heap.loc) (kv : string * value) :
  h !! cur = Some (Heap.OList items) ->
  (Heap.filter_step cur kv h).1 = inr cur' ->
  exists items', (Heap.filter_step cur kv h).2 !! cur' = Some (Heap.OList items') /\
                 sublist items' items.
Proof.
  intros Hcur. unfold Heap.filter_step. destruct (kwarg_test kv.1 kv.2) as [test |].
  - rewrite run_bind. unfold Heap.load_list. rewrite run_bind. unfold Heap.deref.
    rewrite Hcur. cbn [mret Heap.M_ret]. rewrite run_bind.
    pose proof (heap_comprehension_sublist test items) as Hsub.
    destruct (Heap.comprehension test items h) as [[e | kept] h1] eqn:E; [discriminate |].
    specialize (Hsub kept h). rewrite E in Hsub. specialize (Hsub eq_refl).
    cbn. intros [= <-]. exists kept. split; [apply lookup_insert_eq | exact Hsub].
  - cbn. intros [= <-]. exists items. split; [exact Hcur | reflexivity].
Qed.

Lemma heap_filter_loop_list (kwargs : list (string * value))
    (h : gmap Heap.loc Heap.object) (cur l : Heap.loc) (items : list Heap.loc) :
  h !! cur = Some (Heap.OList items) ->
  (Heap.filter_loop kwargs cur h).1 = inr l ->
  exists items', (Heap.filter_loop kwargs cur h).2 !! l = Some (Heap.OList items') /\
                 sublist items' items.
Proof.
  revert h cur items. induction kwargs as [| kv rest IH]; intros h cur items Hcur.
  - cbn. intros [= <-]. exists items. split; [exact Hcur | reflexivity].
  - cbn [Heap.filter_loop]. rewrite run_bind.
    pose proof (fun c => heap_filter_step_list h cur c items kv Hcur) as Hstep.
    destruct (Heap.filter_step cur kv h) as [[e | cur1] h1]; [discriminate |].
    destruct (Hstep cur1 eq_refl) as (items1 & H1 & Hsub1). cbn [snd] in H1.
    intros Hl. destruct (IH h1 cur1 items1 H1 Hl) as (items' & H' & Hsub').
    exists items'. split; [exact H' | etrans; eassumption].
Qed.

(** X22. The list [filter_patients] returns holds references to the patient
    objects of the dataset themselves, not copies: each of its items is an
    item of the dataset's dictionary, in the dictionary's order. *)
Theorem filter_returns_dataset_objects (self l : Heap.loc)
    (kwargs : list (string * value)) (entries : dict Heap.loc)
    (h : gmap Heap.loc Heap.object) :
  (Heap.load_patients self h).1 = inr entries ->
  (Heap.filter_patients self kwargs h).1 = inr l ->
  exists items,
    (Heap.filter_patients self kwargs h).2 !! l = Some (Heap.OList items) /\
    sublist items (dict_values entries).
Proof.
  intros Hload. unfold Heap.filter_patients. rewrite run_bind.
  pose proof (reads_only_load_patients self h) as Hh.
  destruct (Heap.load_patients self h) as [[x | entries'] h1]; cbn in Hload, Hh;
    [discriminate |].
  injection Hload as ->. subst h1. rewrite run_bind.
  destruct (alloc_fresh (Heap.OList (dict_values entries)) h) as (Hf & Hr & Hh & Hsub).
  destruct (Heap.alloc (Heap.OList (dict_values entries)) h) as [r h1];
    cbn [fst snd] in Hr, Hh, Hsub. subst r.
  apply heap_filter_loop_list. rewrite Hh. apply lookup_insert_eq.
Qed.

Lemma filter_returns_dataset_objects_witness :
  exists items,
    (Heap.filter_patients 1%positive [("age_min", VInt 60)] Heap.demo_heap).2 !! 5%positive =
      Some (Heap.OList items) /\
    sublist items (dict_values [("P001", 3%positive)]).
Proof.
  apply (filter_returns_dataset_objects 1%positive 5%positive [("age_min", VInt 60)]
           [("P001", 3%positive)] Heap.demo_heap); vm_compute; reflexivity.
Defined.



